(** * chatbots_api: the conversation store and the request handlers

    A shallow embedding of [src/chatbots_api/main.py].

    - Python [str] values are sequences of Unicode code points.
    - The SQLite file is a record of two tables plus the AUTOINCREMENT
      counters kept in [sqlite_sequence].
    - A handler is a computation over the world (database and the log of
      calls made to the completion client) that returns a value or raises.
      Statements already executed stay executed when a handler raises.
    - What the process reads from outside (the clock, the completion
      client's answer) is an argument of the function that reads it.
    - Integers are Python's unbounded integers. The sqlite3 module binds
      the parameters of a statement before it runs it, and refuses an
      integer outside the signed 64-bit range (OverflowError), text with a
      surrogate code point (UnicodeEncodeError) and a list or dict; the
      statement then does nothing. This is modelled ([int64], [encodable],
      [sql_bind]) wherever a parameter comes from a request or from the
      completion client. A clock reading is the output of [isoformat], plain
      ASCII. Failures of the storage engine itself (disk, locks, a rowid
      counter at its maximum) are outside the model. *)

From Stdlib Require Import ZArith NArith String Ascii Lia.
From Stdlib Require Import Floats.PrimFloat.
From stdpp Require Import base option list gmap sorting.

Local Open Scope Z_scope.

(** ** Python strings *)

Module PyStr.

Abbreviation pystr := (list N).

(** A literal of the source, as code points. *)
Definition py (s : string) : pystr :=
  List.map N_of_ascii (list_ascii_of_string s).

(** [str.isspace] for one code point (CPython's [_PyUnicode_IsWhitespace]). *)
Definition isspace (c : N) : bool :=
  ((0x09 <=? c) && (c <=? 0x0D) ||
   (0x1C <=? c) && (c <=? 0x20) ||
   (c =? 0x85) || (c =? 0xA0) || (c =? 0x1680) ||
   (0x2000 <=? c) && (c <=? 0x200A) ||
   (c =? 0x2028) || (c =? 0x2029) || (c =? 0x202F) ||
   (c =? 0x205F) || (c =? 0x3000))%N.

Fixpoint lstrip (s : pystr) : pystr :=
  match s with
  | c :: s' => if isspace c then lstrip s' else s
  | [] => []
  end.

Definition rstrip (s : pystr) : pystr :=
  fold_right
    (fun c acc =>
       match acc with
       | [] => if isspace c then [] else [c]
       | _ :: _ => c :: acc
       end) [] s.

(** [s.strip()] *)
Definition strip (s : pystr) : pystr := lstrip (rstrip s).

(** Whether [s] has a UTF-8 encoding, which the sqlite3 module needs to
    bind it: no code point of [s] is a surrogate. *)
Definition encodable (s : pystr) : bool :=
  forallb (fun c => negb ((0xD800 <=? c) && (c <=? 0xDFFF))%N) s.

(** Truth value of a string: [bool(s)]. *)
Definition str_truthy (s : pystr) : bool :=
  match s with [] => false | _ :: _ => true end.

(** [a or b] on strings. *)
Definition str_or (a b : pystr) : pystr := if str_truthy a then a else b.

End PyStr.
Import PyStr.

(** ** JSON values, as [json.loads] hands them to a handler typed [Dict] *)

#[warnings="-register-all"]
Inductive json : Type :=
| JNull
| JBool (b : bool)
| JInt (z : Z)
| JFloat (f : float)
| JStr (s : pystr)
| JArr (items : list json)
| JObj (fields : list (pystr * json)).

(** [bool(v)] *)
Definition truthy (v : json) : bool :=
  match v with
  | JNull => false
  | JBool b => b
  | JInt z => negb (z =? 0)
  | JFloat f => negb (PrimFloat.eqb f PrimFloat.zero)
  | JStr s => str_truthy s
  | JArr items => match items with [] => false | _ :: _ => true end
  | JObj fields => match fields with [] => false | _ :: _ => true end
  end.

(** [d.get(k)]: the value, or [None] when the key is absent. *)
Definition dict_get (d : gmap (list N) json) (k : pystr) : json :=
  default JNull (d !! k).

(** [d.get(k, dflt)] *)
Definition dict_get_default (d : gmap (list N) json) (k : pystr) (dflt : json) : json :=
  default dflt (d !! k).

(** ** The SQLite file *)

Module Store.

(** A row of [chats (id, title, created_at)]. [title] is a nullable TEXT. *)
Record chat_row := ChatRow
  { c_id : Z; c_title : option (list N); c_created_at : pystr }.

(** A row of [messages (id, chat_id, sender, text, timestamp)]. *)
Record message_row := MessageRow
  { m_id : Z; m_chat_id : Z; m_sender : pystr; m_text : pystr;
    m_timestamp : pystr }.

(** The two tables, and for each the largest rowid it ever held
    ([sqlite_sequence], kept because the keys are AUTOINCREMENT). *)
Record database := Database
  { chats : list chat_row; messages : list message_row;
    seq_chats : Z; seq_messages : Z }.

(** [init_db]: both statements are CREATE TABLE IF NOT EXISTS, so an
    existing file is left as it is and a missing one starts empty. *)
Definition empty_db : database := Database [] [] 0 0.
Definition init_db (file : option database) : database := default empty_db file.

(** The rowid AUTOINCREMENT gives to a new row: one more than the
    largest rowid the table holds or ever held. *)
Definition next_rowid (seq : Z) (ids : list Z) : Z :=
  fold_right Z.max seq ids + 1.

(** ORDER BY: a stable insertion sort on the key. *)
Section OrderBy.
Context {A : Type} (key : A -> Z) (before : Z -> Z -> bool).

Fixpoint insert_by (x : A) (l : list A) : list A :=
  match l with
  | [] => [x]
  | y :: l' =>
      if before (key x) (key y) then x :: y :: l' else y :: insert_by x l'
  end.

Definition order_by (l : list A) : list A := fold_right insert_by [] l.
End OrderBy.

Definition order_by_asc {A} (key : A -> Z) := order_by key Z.leb.
Definition order_by_desc {A} (key : A -> Z) := order_by key Z.geb.

(** A value bound to a [?] of a statement. *)
Inductive sqlval := SqlNull | SqlInt (z : Z) | SqlReal (f : float) | SqlText (s : pystr).

(** The range of SQLite's INTEGER: signed 64-bit. *)
Definition int64 (z : Z) : bool := (- 2 ^ 63 <=? z) && (z <=? 2 ^ 63 - 1).

(** What the sqlite3 module binds for a Python value; [None] when it
    refuses the value: an integer outside the 64-bit range, a string that
    has no UTF-8 encoding, a list, a dict. [bool] is an [int]. *)
Definition sql_bind (v : json) : option sqlval :=
  match v with
  | JNull => Some SqlNull
  | JBool b => Some (SqlInt (if b then 1 else 0))
  | JInt z => if int64 z then Some (SqlInt z) else None
  | JFloat f => Some (SqlReal f)
  | JStr s => if encodable s then Some (SqlText s) else None
  | JArr _ | JObj _ => None
  end.

Section Statements.
(** The engine's comparison of an INTEGER key with a REAL or TEXT
    operand (numeric affinity); it belongs to SQLite, not to this
    repository, and is left open. *)
Variable affinity_eq : sqlval -> Z -> bool.

(** [id = ?] *)
Definition id_eq (v : sqlval) (id : Z) : bool :=
  match v with
  | SqlNull => false
  | SqlInt z => id =? z
  | SqlReal _ | SqlText _ => affinity_eq v id
  end.

(** INSERT INTO messages (chat_id, sender, text, timestamp) VALUES (?, ?, ?, ?) *)
Definition insert_message (chat_id : Z) (sender text now : pystr)
    (d : database) : database :=
  let rid := next_rowid (seq_messages d) (m_id <$> messages d) in
  Database (chats d)
           (messages d ++ [MessageRow rid chat_id sender text now])
           (seq_chats d) rid.

(** INSERT INTO chats (title, created_at) VALUES (?, ?), with [lastrowid]. *)
Definition insert_chat (title now : pystr) (d : database) : database * Z :=
  let rid := next_rowid (seq_chats d) (c_id <$> chats d) in
  (Database (chats d ++ [ChatRow rid (Some title) now]) (messages d)
            rid (seq_messages d),
   rid).

(** UPDATE chats SET title = ? WHERE id = ? *)
Definition update_title (title : pystr) (v : sqlval) (d : database) : database :=
  Database
    ((fun r => if id_eq v (c_id r)
               then ChatRow (c_id r) (Some title) (c_created_at r)
               else r) <$> chats d)
    (messages d) (seq_chats d) (seq_messages d).

(** SELECT id, title, created_at FROM chats ORDER BY id DESC *)
Definition select_chats (d : database) : list chat_row :=
  order_by_desc c_id (chats d).

(** SELECT id, chat_id, sender, text, timestamp FROM messages
    WHERE chat_id = ? ORDER BY id ASC *)
Definition select_messages (chat_id : Z) (d : database) : list message_row :=
  order_by_asc m_id (List.filter (fun r => m_chat_id r =? chat_id) (messages d)).

(** DELETE FROM messages WHERE chat_id = ? *)
Definition delete_messages (chat_id : Z) (d : database) : database :=
  Database (chats d)
           (List.filter (fun r => negb (m_chat_id r =? chat_id)) (messages d))
           (seq_chats d) (seq_messages d).

(** DELETE FROM chats WHERE id = ? *)
Definition delete_chat_row (chat_id : Z) (d : database) : database :=
  Database (List.filter (fun r => negb (c_id r =? chat_id)) (chats d))
           (messages d) (seq_chats d) (seq_messages d).
End Statements.

End Store.
Import Store.

(** ** Handlers as computations over the world *)

Module Handler.

(** What one call of [client.chat.completions.create] is given. *)
Record gw_request := GwRequest
  { gw_model : pystr; gw_system : pystr; gw_user : json;
    gw_max_tokens : option Z }.

(** What the call does: it raises, or it answers with
    [response.choices[0].message.content], which may be [None]. *)
Inductive gw_outcome := GwRaise | GwReply (content : option (list N)).

Record world := World { db : database; gateway_log : list gw_request }.

Inductive exn :=
| HTTPException (status_code : Z) (detail : pystr)
| APIError          (* raised by the completion client *)
| AttributeError    (* [None.strip()] *)
| OverflowError     (* sqlite3: the integer does not fit SQLite's INTEGER *)
| UnicodeEncodeError (* sqlite3: the text has no UTF-8 encoding *)
| InterfaceError.   (* sqlite3: the type of the parameter is not supported *)

Inductive result (A : Type) := Return (a : A) | Raise (e : exn).
Arguments Return {A} a.
Arguments Raise {A} e.

Definition M (A : Type) : Type := world -> world * result A.

Definition ret {A} (a : A) : M A := fun w => (w, Return a).
Definition raise {A} (e : exn) : M A := fun w => (w, Raise e).
Definition bind {A B} (m : M A) (k : A -> M B) : M B :=
  fun w => match m w with
           | (w', Return a) => k a w'
           | (w', Raise e) => (w', Raise e)
           end.
(** [try: m  except Exception: h] *)
Definition try_except {A} (m : M A) (h : exn -> M A) : M A :=
  fun w => match m w with
           | (w', Return a) => (w', Return a)
           | (w', Raise e) => h e w'
           end.
(** One connection: execute, commit, close. *)
Definition execute (f : database -> database) : M unit :=
  fun w => (World (f (db w)) (gateway_log w), Return tt).
Definition query {A} (f : database -> A) : M A :=
  fun w => (w, Return (f (db w))).

Declare Scope handler_scope.
Delimit Scope handler_scope with handler.
Notation "x <- m ;; k" := (bind m (fun x => k))
  (at level 100, m at next level, right associativity) : handler_scope.
Notation "m ;;; k" := (bind m (fun _ => k))
  (at level 100, right associativity) : handler_scope.
Local Open Scope handler_scope.

(** Request model [Message]. *)
Record Message := { chat_id : Z; message : pystr }.

(** An entry of the list returned by [list_chats]. *)
Record chat_entry := ChatEntry
  { e_id : Z; e_title : pystr; e_created_at : pystr }.

(** The JSON bodies the handlers return. *)
Inductive response :=
| RespChatId (chat_id : Z)
| RespTitle (title : pystr)
| RespChats (chats : list chat_entry)
| RespMessages (messages : list message_row)
| RespStatus (status : pystr)
| RespReply (reply : pystr).

(** [client.chat.completions.create(...)] followed by
    [response.choices[0].message.content]. *)
Definition completions_create (req : gw_request) (gw : gw_outcome)
    : M (option (list N)) :=
  fun w =>
    let w' := World (db w) (gateway_log w ++ [req]) in
    match gw with
    | GwRaise => (w', Raise APIError)
    | GwReply content => (w', Return content)
    end.

(** [content.strip()] *)
Definition content_strip (content : option (list N)) : M (list N) :=
  match content with
  | None => raise AttributeError
  | Some s => ret (strip s)
  end.

(** What the sqlite3 module raises for a value [sql_bind] refuses. *)
Definition bind_error (v : json) : exn :=
  match v with
  | JInt _ => OverflowError
  | JStr _ => UnicodeEncodeError
  | _ => InterfaceError
  end.

(** The parameters are bound in order, chat_id first; when one is
    refused the INSERT does not run. *)
Definition save_message (chat_id : Z) (sender text : pystr) (now : pystr) : M unit :=
  if negb (int64 chat_id) then raise OverflowError
  else if negb (encodable sender && encodable text) then raise UnicodeEncodeError
  else execute (insert_message chat_id sender text now).

Definition create_chat (now : pystr) : M response :=
  fun w =>
    let '(d, chat_id) := insert_chat (py "New Chat") now (db w) in
    (World d (gateway_log w), Return (RespChatId chat_id)).

Definition title_prompt : pystr :=
  py "Generate a short, clean chat title (max 5 words) summarizing the user's message. Return only the title.".

Section WithEngine.
Variable affinity_eq : sqlval -> Z -> bool.

(** Lines 124-128 of [generate_title]: the UPDATE on its own connection.
    The title is bound first, then the chat_id. *)
Definition set_title (title : pystr) (chat_id : json) : M unit :=
  if negb (encodable title) then raise UnicodeEncodeError
  else
    match sql_bind chat_id with
    | None => raise (bind_error chat_id)
    | Some v => execute (update_title affinity_eq title v)
    end.

Definition generate_title (data : gmap (list N) json) (gw : gw_outcome)
    : M response :=
  let chat_id := dict_get data (py "chat_id") in
  let user_message := dict_get_default data (py "message") (JStr []) in
  if negb (truthy chat_id) then
    raise (HTTPException 400 (py "chat_id required"))
  else
    title <- try_except
               (response <- completions_create
                              (GwRequest (py "gpt-4o-mini") title_prompt
                                         user_message (Some 16)) gw ;;
                title <- content_strip response ;;
                ret (if negb (str_truthy title) then py "Conversation" else title))
               (fun e => ret (py "Conversation")) ;;
    (set_title title chat_id ;;;
     ret (RespTitle title)).
End WithEngine.

(** One element of the comprehension in [list_chats];
    [r["title"] or "New Chat"] replaces a NULL or empty title. *)
Definition chat_entry_of (r : chat_row) : chat_entry :=
  ChatEntry (c_id r)
            (match c_title r with
             | Some t => str_or t (py "New Chat")
             | None => py "New Chat"
             end)
            (c_created_at r).

Definition list_chats : M response :=
  rows <- query select_chats ;;
  ret (RespChats (chat_entry_of <$> rows)).

Definition get_chat_messages (chat_id : Z) : M response :=
  if negb (int64 chat_id) then raise OverflowError
  else
    rows <- query (select_messages chat_id) ;;
    ret (RespMessages rows).

(** The first DELETE binds chat_id; when that is refused nothing is
    deleted. *)
Definition delete_chat (chat_id : Z) : M response :=
  if negb (int64 chat_id) then raise OverflowError
  else
    (execute (fun d => delete_chat_row chat_id (delete_messages chat_id d)) ;;;
     ret (RespStatus (py "deleted"))).

Definition call_chat_model (system_prompt user_text : pystr) (gw : gw_outcome)
    : M (list N) :=
  let prompt := py "User message: " ++ user_text in
  response <- completions_create
                (GwRequest (py "gpt-4o-mini") system_prompt (JStr prompt) None) gw ;;
  ai_reply <- content_strip response ;;
  ret ai_reply.

(** The body the five chatbot endpoints share; they differ in the prompt.
    [now1], [now2] are the clock readings of the two [save_message] calls. *)
Definition chat_with (system_prompt : pystr) (msg : Message)
    (now1 now2 : pystr) (gw : gw_outcome) : M response :=
  let chat_id := chat_id msg in
  let user_msg := str_or (message msg) [] in
  save_message chat_id (py "user") user_msg now1 ;;;
  (ai_reply <- call_chat_model system_prompt user_msg gw ;;
   (save_message chat_id (py "bot") ai_reply now2 ;;;
    ret (RespReply ai_reply))).

Definition chat_real_estate := chat_with
  (py "You are a professional and friendly real estate assistant. Provide clear, structured answers using short headings, bullet points, and short paragraphs. Keep tone helpful and respectful. Avoid markdown symbols like ** or ###.").

Definition chat_student_mentor := chat_with
  (py "You are a friendly and knowledgeable student mentor. Help with studies, exams, career guidance and productivity. Use bullet points and short paragraphs. Keep a warm, motivating tone.").

Definition chat_fitness_coach := chat_with
  (py "You are a certified fitness coach and nutrition expert. Give workout plans, diet advice, and practical tips. Format answers with steps and bullet points.").

Definition chat_restaurant := chat_with
  (py "You are a friendly restaurant and culinary assistant. Help with recipes, menu ideas, cooking instructions, and operations. Format with clear short sections and bullet points.").

Definition chat_travel_planner := chat_with
  (py "You are a helpful travel planner assistant. Suggest itineraries, budgets, places to visit and packing tips. Structure answers with headings, bullet points and short paragraphs.").

Definition health : M response := ret (RespStatus (py "ok")).

End Handler.
Import Handler.

(** ** The routes *)

Module Router.

(** POST /api/{persona}/chat: the route picks the handler, and with it
    the prompt. *)
Inductive persona :=
| RealEstate | StudentMentor | FitnessCoach | Restaurant | TravelPlanner.

Definition persona_chat (p : persona)
    : Message -> pystr -> pystr -> gw_outcome -> M response :=
  match p with
  | RealEstate => chat_real_estate
  | StudentMentor => chat_student_mentor
  | FitnessCoach => chat_fitness_coach
  | Restaurant => chat_restaurant
  | TravelPlanner => chat_travel_planner
  end.

(** A request, together with what the handler will read from outside
    while serving it (clock readings, the completion client's answer). *)
Inductive request :=
| PostChatNew (now : pystr)
| PostChatTitle (data : gmap (list N) json) (gw : gw_outcome)
| GetChatList
| GetChatMessages (chat_id : Z)
| DeleteChat (chat_id : Z)
| PostPersonaChat (p : persona) (msg : Message) (now1 now2 : pystr) (gw : gw_outcome)
| GetHealth.

Section WithEngine.
Variable affinity_eq : sqlval -> Z -> bool.

Definition handle (r : request) : M response :=
  match r with
  | PostChatNew now => create_chat now
  | PostChatTitle data gw => generate_title affinity_eq data gw
  | GetChatList => list_chats
  | GetChatMessages chat_id => get_chat_messages chat_id
  | DeleteChat chat_id => delete_chat chat_id
  | PostPersonaChat p msg now1 now2 gw => persona_chat p msg now1 now2 gw
  | GetHealth => health
  end.

(** Requests served one after the other. *)
Definition serve (rs : list request) (w : world) : world :=
  fold_left (fun w r => fst (handle r w)) rs w.

End WithEngine.

End Router.
Import Router.

(** ** Vocabulary of the properties *)

Module Vocabulary.





(** The title lines 109-122 of [generate_title] arrive at. *)
Definition generated_title (gw : gw_outcome) : pystr :=
  match gw with
  | GwReply (Some content) =>
      if str_truthy (strip content) then strip content else py "Conversation"
  | GwReply None | GwRaise => py "Conversation"
  end.

Definition title_request (data : gmap (list N) json) : gw_request :=
  GwRequest (py "gpt-4o-mini") title_prompt
            (dict_get_default data (py "message") (JStr [])) (Some 16).

Section WithEngine.
Variable affinity_eq : sqlval -> Z -> bool.

(** The title stored for chat [c], if it has a row. *)
Definition stored_title (c : Z) (d : database) : option (option (list N)) :=
  c_title <$> List.find (fun r => c_id r =? c) (chats d).

(** Whether serving [r] in [w] replaced the title stored for [c] by a
    different one. *)
Definition title_changed (c : Z) (r : request) (w : world) : bool :=
  match stored_title c (db w), stored_title c (db (fst (handle affinity_eq r w))) with
  | Some t, Some t' => bool_decide (t <> t')
  | _, _ => false
  end.

(** How many times the title of [c] changes while [rs] is served. *)
Fixpoint title_updates (c : Z) (rs : list request) (w : world) : nat :=
  match rs with
  | [] => 0%nat
  | r :: rs' =>
      ((if title_changed c r w then 1 else 0)
       + title_updates c rs' (fst (handle affinity_eq r w)))%nat
  end.

(** [r] is a title generation that reaches the UPDATE with a chat_id
    selecting row [c]. *)
Definition retitles (c : Z) (r : request) : bool :=
  match r with
  | PostChatTitle data _ =>
      let v := dict_get data (py "chat_id") in
      truthy v &&
      match sql_bind v with
      | Some sv => id_eq affinity_eq sv c
      | None => false
      end
  | _ => false
  end.
End WithEngine.

End Vocabulary.
Import Vocabulary.

(** ** Invariants and request classes *)

Module Invariants.

(** Primary keys: the rowids of a table are pairwise distinct and none
    is above the table's AUTOINCREMENT counter. *)
Definition keys_ok (seq : Z) (ids : list Z) : Prop :=
  NoDup ids /\ Forall (fun i => i <= seq) ids.

Definition wf (d : database) : Prop :=
  keys_ok (seq_chats d) (c_id <$> chats d)
  /\ keys_ok (seq_messages d) (m_id <$> messages d).

(** Every chat row has a title, and not the empty one. *)
Definition titled (d : database) : Prop :=
  Forall (fun r => exists t, c_title r = Some t /\ t <> []) (chats d).

(** [s] neither starts nor ends with whitespace. *)
Definition trimmed (s : pystr) : bool :=
  match s, last s with
  | c :: _, Some e => negb (isspace c) && negb (isspace e)
  | _, _ => true
  end.

(** [r] writes or deletes messages of chat [c]. *)
Definition touches_messages (c : Z) (r : request) : bool :=
  match r with
  | PostPersonaChat _ msg _ _ _ => chat_id msg =? c
  | DeleteChat c' => c' =? c
  | _ => false
  end.

Definition is_delete (r : request) : bool :=
  match r with DeleteChat _ => true | _ => false end.

(** How many calls to the completion client serving [r] takes: a persona
    chat call reaches the client when its first INSERT went through, a title
    request when its chat_id is truthy. *)
Definition gateway_calls (r : request) : nat :=
  match r with
  | PostPersonaChat _ msg _ _ _ =>
      if int64 (chat_id msg) && encodable (message msg) then 1 else 0
  | PostChatTitle data _ =>
      if truthy (dict_get data (py "chat_id")) then 1 else 0
  | _ => 0
  end.

End Invariants.
Import Invariants.

(** * Properties *)

(** ** Strings *)

Lemma str_or_empty (s : list N) : str_or s [] = s.
Proof. by destruct s. Qed.

Example isspace_table :
  isspace <$> [0x20; 0x0A; 0x09; 0xA0; 0x3000; 0x41; 0x200B]%N
  = [true; true; true; true; true; false; false].
Proof. reflexivity. Qed.

Example strip_both_ends : strip (py "  Trip to Rome ") = py "Trip to Rome".
Proof. reflexivity. Qed.

Example strip_blank : strip (py "   ") = [].
Proof. reflexivity. Qed.

(** ** Truth values *)

Example falsy_values :
  truthy <$> [JNull; JBool false; JInt 0; JFloat 0%float; JFloat (-0)%float;
              JStr []; JArr []; JObj []]
  = [false; false; false; false; false; false; false; false].
Proof. reflexivity. Qed.

Example truthy_values :
  truthy <$> [JBool true; JInt 7; JInt (-1); JFloat 0.5%float; JFloat nan;
              JStr (py "1"); JArr [JInt 0]; JObj [(py "k", JNull)]]
  = [true; true; true; true; true; true; true; true].
Proof. reflexivity. Qed.

(** ** ORDER BY *)

Section OrderByFacts.
Context {A : Type} (key : A -> Z).

Lemma insert_by_Permutation before (x : A) l :
  insert_by key before x l ≡ₚ x :: l.
Proof.
  induction l as [|y l IH]; simpl; [done|].
  destruct (before _ _); [done|].
  rewrite IH. apply Permutation_swap.
Qed.

Lemma order_by_Permutation before (l : list A) :
  order_by key before l ≡ₚ l.
Proof.
  induction l as [|x l IH]; simpl; [done|].
  by rewrite insert_by_Permutation, IH.
Qed.

(** Ascending: a row whose key is at least every key of [l] goes last. *)
Lemma insert_asc_snoc (a x : A) s :
  key a <= key x ->
  insert_by key Z.leb a (s ++ [x]) = insert_by key Z.leb a s ++ [x].
Proof.
  intros Hax. induction s as [|y s IH]; simpl.
  - by rewrite (proj2 (Z.leb_le _ _) Hax).
  - destruct (key a <=? key y); [done|]. by rewrite IH.
Qed.

Lemma order_by_asc_snoc (x : A) l :
  Forall (fun y => key y <= key x) l ->
  order_by_asc key (l ++ [x]) = order_by_asc key l ++ [x].
Proof.
  unfold order_by_asc, order_by.
  induction 1 as [|y l Hy Hl IH]; simpl; [done|].
  rewrite IH. by apply insert_asc_snoc.
Qed.

(** Descending: a row whose key exceeds every key of [l] goes first. *)
Lemma order_by_desc_snoc (x : A) l :
  Forall (fun y => key y < key x) l ->
  order_by_desc key (l ++ [x]) = x :: order_by_desc key l.
Proof.
  unfold order_by_desc, order_by.
  induction 1 as [|y l Hy Hl IH]; simpl; [done|].
  rewrite IH. simpl.
  destruct (Z.geb_spec (key y) (key x)); [lia|done].
Qed.

Lemma insert_asc_sorted (x : A) l :
  StronglySorted (fun a b => key a <= key b) l ->
  StronglySorted (fun a b => key a <= key b) (insert_by key Z.leb x l).
Proof.
  induction 1 as [|y l Hl IH Hy]; simpl.
  - repeat constructor.
  - destruct (Z.leb_spec (key x) (key y)).
    + constructor; [by constructor|].
      constructor; [done|].
      eapply Forall_impl; [exact Hy|]. simpl. intros; lia.
    + constructor; [done|].
      rewrite insert_by_Permutation. constructor; [lia|done].
Qed.

Lemma order_by_asc_sorted (l : list A) :
  StronglySorted (fun a b => key a <= key b) (order_by_asc key l).
Proof.
  induction l as [|x l IH]; simpl; [constructor|].
  by apply insert_asc_sorted.
Qed.

Lemma insert_desc_sorted (x : A) l :
  StronglySorted (fun a b => key a >= key b) l ->
  StronglySorted (fun a b => key a >= key b) (insert_by key Z.geb x l).
Proof.
  induction 1 as [|y l Hl IH Hy]; simpl.
  - repeat constructor.
  - destruct (Z.geb_spec (key x) (key y)).
    + constructor; [by constructor|].
      constructor; [lia|].
      eapply Forall_impl; [exact Hy|]. simpl. intros; lia.
    + constructor; [done|].
      rewrite insert_by_Permutation. constructor; [lia|done].
Qed.

Lemma order_by_desc_sorted (l : list A) :
  StronglySorted (fun a b => key a >= key b) (order_by_desc key l).
Proof.
  induction l as [|x l IH]; simpl; [constructor|].
  by apply insert_desc_sorted.
Qed.
End OrderByFacts.

(** ** The store *)

Lemma fold_max_bound seq ids : Forall (fun y => y <= fold_right Z.max seq ids) ids.
Proof.
  induction ids as [|y ids IH]; cbn [fold_right]; constructor.
  - apply Z.le_max_l.
  - eapply Forall_impl; [exact IH|]. cbn beta. intros x Hx.
    etrans; [exact Hx|apply Z.le_max_r].
Qed.

(** A new rowid is above every rowid of the table. *)
Lemma next_rowid_fresh seq ids : Forall (fun y => y < next_rowid seq ids) ids.
Proof.
  unfold next_rowid. eapply Forall_impl; [apply (fold_max_bound seq)|].
  cbn beta. intros x Hx. lia.
Qed.

Lemma fold_max_absorb n ids : Forall (fun y => y <= n) ids -> fold_right Z.max n ids = n.
Proof.
  induction 1 as [|y ids Hy Hids IH]; cbn [fold_right]; [done|].
  rewrite IH. by apply Z.max_r.
Qed.

(** Two inserts in a row take consecutive rowids. *)
Lemma next_rowid_succ seq ids :
  let n := next_rowid seq ids in next_rowid n (ids ++ [n]) = n + 1.
Proof.
  intros n. unfold next_rowid at 1. rewrite fold_right_app. cbn [fold_right].
  rewrite Z.max_id, fold_max_absorb; [done|].
  eapply Forall_impl; [apply (next_rowid_fresh seq)|]. simpl. intros; lia.
Qed.

Lemma Forall_filter_weaken {A} (P : A -> Prop) (f : A -> bool) l :
  Forall P l -> Forall P (List.filter f l).
Proof.
  induction 1 as [|x l Hx Hl IH]; simpl; [constructor|].
  destruct (f x); [by constructor|done].
Qed.

Lemma filter_none {A} (f : A -> bool) l :
  Forall (fun x => f x = false) l -> List.filter f l = [].
Proof. induction 1 as [|x l Hx Hl IH]; simpl; [done|]. by rewrite Hx. Qed.

Lemma filter_all {A} (f : A -> bool) l :
  Forall (fun x => f x = true) l -> List.filter f l = l.
Proof. induction 1 as [|x l Hx Hl IH]; simpl; [done|]. by rewrite Hx, IH. Qed.

(** What SELECT ... WHERE chat_id = c returns after one INSERT. *)
Lemma select_messages_insert c chat_id sender text now d :
  select_messages c (insert_message chat_id sender text now d) =
  select_messages c d ++
  (if chat_id =? c
   then [MessageRow (next_rowid (seq_messages d) (m_id <$> messages d))
                    chat_id sender text now]
   else []).
Proof.
  unfold select_messages, insert_message. simpl.
  rewrite List.filter_app. simpl.
  destruct (chat_id =? c); [|by rewrite !app_nil_r].
  apply order_by_asc_snoc. simpl.
  apply Forall_filter_weaken.
  pose proof (next_rowid_fresh (seq_messages d) (m_id <$> messages d)) as H.
  rewrite Forall_fmap in H.
  eapply Forall_impl; [exact H|]. simpl. intros; lia.
Qed.

(** ** A session *)

(** A chat is created, one question goes to the real-estate endpoint, and
    the messages are read back: the question, then the reply as returned. *)
Example session_real_estate :
  let aff := fun (_ : sqlval) (_ : Z) => false in
  let w0 := World (init_db None) [] in
  let ask := PostPersonaChat RealEstate
               (Build_Message 1 (py "Show me 2BHK options")) (py "t1") (py "t2")
               (GwReply (Some (py " Here are three options. "))) in
  let w2 := serve aff [PostChatNew (py "t0"); ask] w0 in
  snd (handle aff (PostChatNew (py "t0")) w0) = Return (RespChatId 1)
  /\ snd (handle aff ask (serve aff [PostChatNew (py "t0")] w0))
     = Return (RespReply (py "Here are three options."))
  /\ snd (handle aff (GetChatMessages 1) w2)
     = Return (RespMessages
                 [MessageRow 1 1 (py "user") (py "Show me 2BHK options") (py "t1");
                  MessageRow 2 1 (py "bot") (py "Here are three options.") (py "t2")])
  /\ snd (handle aff GetChatList w2)
     = Return (RespChats [ChatEntry 1 (py "New Chat") (py "t0")]).
Proof. vm_compute. repeat split. Qed.

(** What the store refuses: an id outside the signed 64-bit range, and
    text with a lone surrogate. The persona chat call stops at its first
    INSERT, before the completion client is called; the title request
    reaches the client and stops at the UPDATE. *)
Example refused_parameters :
  let aff := fun (_ : sqlval) (_ : Z) => false in
  let w := World (Database [ChatRow 1 (Some (py "New Chat")) (py "t0")] [] 1 0) [] in
  let answer := GwReply (Some (py "Fine.")) in
  let data : gmap (list N) json := {[ py "chat_id" := JInt (2 ^ 63) ]} in
  int64 (2 ^ 63 - 1) = true /\ int64 (2 ^ 63) = false /\ int64 (- 2 ^ 63) = true
  /\ encodable [0x68; 0xD800]%N = false
  /\ chat_travel_planner (Build_Message (2 ^ 63) (py "hi")) (py "t1") (py "t2") answer w
     = (w, Raise OverflowError)
  /\ chat_travel_planner (Build_Message 1 [0x68; 0xD800]%N) (py "t1") (py "t2") answer w
     = (w, Raise UnicodeEncodeError)
  /\ get_chat_messages (2 ^ 63) w = (w, Raise OverflowError)
  /\ delete_chat (2 ^ 63) w = (w, Raise OverflowError)
  /\ generate_title aff data GwRaise w
     = (World (db w) [title_request data], Raise OverflowError).
Proof. vm_compute. repeat split. Qed.

(** ** C1: what a persona chat call persists *)

(** The outcome of a persona chat call, spelled out for the three things
    the completion client can do. *)
Lemma encodable_user : encodable (py "user") = true.
Proof. reflexivity. Qed.

Lemma encodable_bot : encodable (py "bot") = true.
Proof. reflexivity. Qed.

(** [save_message], spelled out: the refusals first, then the INSERT. *)
Lemma save_message_run c sender text now w :
  save_message c sender text now w =
  if negb (int64 c) then (w, Raise OverflowError)
  else if negb (encodable sender && encodable text)
       then (w, Raise UnicodeEncodeError)
       else (World (insert_message c sender text now (db w)) (gateway_log w),
             Return tt).
Proof.
  unfold save_message. destruct (negb (int64 c)); [done|].
  by destruct (negb _).
Qed.

(** The outcome of a persona chat call, spelled out: the refusals of the
    first INSERT, then the three things the completion client can do, and
    for a reply the refusal of the second INSERT. *)
Lemma chat_with_run sp (msg : Message) (now1 now2 : list N) gw w :
  let d1 := insert_message (chat_id msg) (py "user") (message msg) now1 (db w) in
  let req := GwRequest (py "gpt-4o-mini") sp
                       (JStr (py "User message: " ++ message msg)) None in
  let w1 := World d1 (gateway_log w ++ [req]) in
  chat_with sp msg now1 now2 gw w =
  if negb (int64 (chat_id msg)) then (w, Raise OverflowError)
  else if negb (encodable (message msg)) then (w, Raise UnicodeEncodeError)
  else
    match gw with
    | GwRaise => (w1, Raise APIError)
    | GwReply None => (w1, Raise AttributeError)
    | GwReply (Some content) =>
        if negb (encodable (strip content)) then (w1, Raise UnicodeEncodeError)
        else
          (World (insert_message (chat_id msg) (py "bot") (strip content) now2 d1)
                 (gateway_log w ++ [req]),
           Return (RespReply (strip content)))
    end.
Proof.
  cbv zeta. unfold chat_with, call_chat_model, bind. cbv zeta.
  rewrite str_or_empty, save_message_run, encodable_user. cbn [andb].
  destruct (negb (int64 (chat_id msg))) eqn:Hc; [done|].
  destruct (negb (encodable (message msg))); [done|].
  unfold completions_create, content_strip, ret, raise. cbn [db gateway_log].
  destruct gw as [|[content|]]; [done| |done].
  rewrite save_message_run, Hc, encodable_bot. cbn [andb db gateway_log].
  by destruct (negb (encodable (strip content))).
Qed.

(** The same, when the chat_id and the message can be bound. *)
Lemma chat_with_bound sp (msg : Message) (now1 now2 : list N) gw w :
  int64 (chat_id msg) = true ->
  encodable (message msg) = true ->
  let d1 := insert_message (chat_id msg) (py "user") (message msg) now1 (db w) in
  let req := GwRequest (py "gpt-4o-mini") sp
                       (JStr (py "User message: " ++ message msg)) None in
  let w1 := World d1 (gateway_log w ++ [req]) in
  chat_with sp msg now1 now2 gw w =
  match gw with
  | GwRaise => (w1, Raise APIError)
  | GwReply None => (w1, Raise AttributeError)
  | GwReply (Some content) =>
      if negb (encodable (strip content)) then (w1, Raise UnicodeEncodeError)
      else
        (World (insert_message (chat_id msg) (py "bot") (strip content) now2 d1)
               (gateway_log w ++ [req]),
         Return (RespReply (strip content)))
  end.
Proof. intros Hc Hm. rewrite chat_with_run. cbv zeta. by rewrite Hc, Hm. Qed.

(** Whatever happens, a persona chat call leaves the database as it
    was, or with the "user" row added, or with the "user" row and a "bot"
    row added. *)
Lemma chat_with_db sp (msg : Message) (now1 now2 : list N) gw w :
  let c := chat_id msg in
  let d1 := insert_message c (py "user") (message msg) now1 (db w) in
  let d' := db (fst (chat_with sp msg now1 now2 gw w)) in
  d' = db w \/ d' = d1
  \/ exists reply, d' = insert_message c (py "bot") reply now2 d1.
Proof.
  cbv zeta. rewrite chat_with_run. cbv zeta.
  destruct (negb (int64 _)); [by left|].
  destruct (negb (encodable (message msg))); [by left|].
  destruct gw as [|[content|]]; [by right; left| |by right; left].
  destruct (negb (encodable (strip content))); [by right; left|].
  right; right. by eexists.
Qed.

Lemma persona_chat_is_chat_with p :
  exists sp, persona_chat p = chat_with sp.
Proof. destruct p; eexists; reflexivity. Qed.

(** A persona chat call never touches the chats table or its counter. *)
Lemma chat_with_chats sp (msg : Message) (now1 now2 : list N) gw w :
  chats (db (fst (chat_with sp msg now1 now2 gw w))) = chats (db w)
  /\ seq_chats (db (fst (chat_with sp msg now1 now2 gw w))) = seq_chats (db w).
Proof.
  pose proof (chat_with_db sp msg now1 now2 gw w) as H. cbv zeta in H.
  destruct H as [->|[->|[reply ->]]]; done.
Qed.

(** C1. For each of the five persona endpoints, called with a chat id [c]
    and a message that the store can bind (an id in the 64-bit range, text
    that can be encoded): when the completion client answers, with text the
    store can encode, exactly two rows are added to [messages], first
    (c, "user", the request's message), then (c, "bot", the reply that is
    returned); when the client raises or answers without content, the
    handler raises, exactly the "user" row is added and no "bot" row is. The
    same holds of what the SELECT of getMessages(c) gives, and the chats
    table is not touched. *)
Theorem persona_chat_persists (p : persona) (msg : Message) (now1 now2 : list N)
    (w : world) :
  int64 (chat_id msg) = true ->
  encodable (message msg) = true ->
  let c := chat_id msg in
  let n := next_rowid (seq_messages (db w)) (m_id <$> messages (db w)) in
  let user_row := MessageRow n c (py "user") (message msg) now1 in
  (forall content : list N,
      encodable (strip content) = true ->
      let reply := strip content in
      let bot_row := MessageRow (n + 1) c (py "bot") reply now2 in
      exists w',
        persona_chat p msg now1 now2 (GwReply (Some content)) w
          = (w', Return (RespReply reply))
        /\ messages (db w') = messages (db w) ++ [user_row; bot_row]
        /\ select_messages c (db w') = select_messages c (db w) ++ [user_row; bot_row]
        /\ chats (db w') = chats (db w))
  /\ Forall (fun gw =>
      exists w' e,
        persona_chat p msg now1 now2 gw w = (w', Raise e)
        /\ messages (db w') = messages (db w) ++ [user_row]
        /\ select_messages c (db w') = select_messages c (db w) ++ [user_row]
        /\ chats (db w') = chats (db w))
      [GwRaise; GwReply None].
Proof.
  intros Hc Hm c n user_row.
  destruct (persona_chat_is_chat_with p) as [sp ->].
  split.
  - intros content Hr reply bot_row. eexists.
    rewrite (chat_with_bound _ _ _ _ _ _ Hc Hm). cbv zeta. rewrite Hr. cbn [negb].
    split; [reflexivity|]. simpl.
    rewrite !select_messages_insert. simpl.
    rewrite fmap_app. simpl. fold c n.
    pose proof (next_rowid_succ (seq_messages (db w)) (m_id <$> messages (db w)))
      as Hn.
    cbv zeta in Hn. fold n in Hn.
    rewrite Hn, Z.eqb_refl, <- !app_assoc. done.
  - repeat constructor.
    all: do 2 eexists; rewrite (chat_with_bound _ _ _ _ _ _ Hc Hm);
      split; [reflexivity|]; simpl.
    all: rewrite select_messages_insert; fold c n.
    all: by rewrite Z.eqb_refl.
Qed.

Lemma persona_chat_persists_witness :
  let msg := Build_Message 1 (py "Show me 2BHK options") in
  let w := World (Database [ChatRow 1 (Some (py "New Chat")) (py "t0")] [] 1 0) [] in
  exists w',
    chat_real_estate msg (py "t1") (py "t2") (GwReply (Some (py " Two options. "))) w
      = (w', Return (RespReply (py "Two options.")))
    /\ messages (db w')
       = [MessageRow 1 1 (py "user") (py "Show me 2BHK options") (py "t1");
          MessageRow 2 1 (py "bot") (py "Two options.") (py "t2")]
    /\ select_messages 1 (db w')
       = [MessageRow 1 1 (py "user") (py "Show me 2BHK options") (py "t1");
          MessageRow 2 1 (py "bot") (py "Two options.") (py "t2")]
    /\ chats (db w') = chats (db w).
Proof.
  intros msg w.
  exact (proj1 (persona_chat_persists RealEstate msg (py "t1") (py "t2") w
                  eq_refl eq_refl)
               (py " Two options. ") eq_refl).
Defined.

(** ** C2: getMessages returns what was appended, in order *)

Lemma get_chat_messages_run c w :
  get_chat_messages c w =
  if negb (int64 c) then (w, Raise OverflowError)
  else (w, Return (RespMessages (select_messages c (db w)))).
Proof. unfold get_chat_messages. by destruct (negb (int64 c)). Qed.

Lemma get_chat_messages_world c w : fst (get_chat_messages c w) = w.
Proof. rewrite get_chat_messages_run. by destruct (negb (int64 c)). Qed.

Lemma get_chat_messages_bound c w :
  int64 c = true ->
  get_chat_messages c w = (w, Return (RespMessages (select_messages c (db w)))).
Proof. intros Hc. by rewrite get_chat_messages_run, Hc. Qed.






(** ** C5: listChats *)

Lemma list_chats_run w :
  list_chats w = (w, Return (RespChats (chat_entry_of <$> select_chats (db w)))).
Proof. reflexivity. Qed.

Lemma create_chat_run now w :
  let n := next_rowid (seq_chats (db w)) (c_id <$> chats (db w)) in
  create_chat now w =
  (World (Database (chats (db w) ++ [ChatRow n (Some (py "New Chat")) now])
                   (messages (db w)) n (seq_messages (db w)))
         (gateway_log w),
   Return (RespChatId n)).
Proof. reflexivity. Qed.

(** C5. listChats returns one entry per row of [chats], every row once, in
    descending id order, and it changes nothing; with no chat it returns the
    empty sequence. createChat returns a new id n above every id listed
    before, and the listing that follows is the entry (n, "New Chat", now)
    followed by the previous listing. *)
Theorem list_chats_newest_first (w : world) :
  (exists rows,
      list_chats w = (w, Return (RespChats (chat_entry_of <$> rows)))
      /\ rows ≡ₚ chats (db w)
      /\ StronglySorted (fun a b => e_id a >= e_id b) (chat_entry_of <$> rows))
  /\ (forall msgs s1 s2 log,
        let w0 := World (Database [] msgs s1 s2) log in
        list_chats w0 = (w0, Return (RespChats [])))
  /\ (forall now : list N,
        exists w1 n entries,
          create_chat now w = (w1, Return (RespChatId n))
          /\ list_chats w = (w, Return (RespChats entries))
          /\ list_chats w1
               = (w1, Return (RespChats (ChatEntry n (py "New Chat") now :: entries)))
          /\ Forall (fun e => e_id e < n) entries).
Proof.
  split; [|split].
  - exists (select_chats (db w)). split; [reflexivity|]. split.
    + apply order_by_Permutation.
    + pose proof (order_by_desc_sorted c_id (chats (db w))) as H.
      unfold select_chats. induction H as [|r rows Hs IH Hr]; cbn; constructor.
      * done.
      * by rewrite Forall_fmap.
  - reflexivity.
  - intros now. do 3 eexists. rewrite create_chat_run, !list_chats_run.
    pose proof (next_rowid_fresh (seq_chats (db w)) (c_id <$> chats (db w))) as Hn.
    rewrite Forall_fmap in Hn.
    repeat split.
    + unfold select_chats. cbn [db chats].
      rewrite order_by_desc_snoc; [reflexivity|].
      eapply Forall_impl; [exact Hn|]. done.
    + rewrite Forall_fmap. unfold select_chats, order_by_desc.
      rewrite (order_by_Permutation c_id Z.geb (chats (db w))).
      eapply Forall_impl; [exact Hn|]. done.
Qed.

(** ** C4: deleteChat *)

Section OrderByFilter.
Context {A : Type} (key : A -> Z) (P : A -> bool).

Lemma insert_desc_head (x : A) l :
  Forall (fun z => key x >= key z) l ->
  insert_by key Z.geb x l = x :: l.
Proof.
  destruct 1 as [|z l Hz Hl]; simpl; [done|].
  destruct (Z.geb_spec (key x) (key z)); [done|lia].
Qed.

Lemma filter_insert_desc (x : A) l :
  StronglySorted (fun a b => key a >= key b) l ->
  List.filter P (insert_by key Z.geb x l) =
  if P x then insert_by key Z.geb x (List.filter P l) else List.filter P l.
Proof.
  induction 1 as [|y l Hl IH Hy]; simpl.
  - by destruct (P x).
  - destruct (Z.geb_spec (key x) (key y)) as [Hxy|Hxy]; simpl.
    + destruct (P x) eqn:Hx; [|done].
      destruct (P y); simpl.
      * by rewrite (proj2 (Z.geb_le _ _) Hxy).
      * symmetry. apply insert_desc_head, Forall_filter_weaken.
        eapply Forall_impl; [exact Hy|]. cbn beta. intros; lia.
    + rewrite IH. destruct (P x), (P y); simpl; try done.
      destruct (Z.geb_spec (key x) (key y)); [lia|done].
Qed.

(** Deleting rows and then listing is listing and then dropping them. *)
Lemma order_by_desc_filter (l : list A) :
  order_by_desc key (List.filter P l) = List.filter P (order_by_desc key l).
Proof.
  induction l as [|x l IH]; simpl; [done|].
  change (order_by_desc key (x :: l))
    with (insert_by key Z.geb x (order_by_desc key l)).
  rewrite filter_insert_desc by apply order_by_desc_sorted.
  destruct (P x); [|done].
  change (order_by_desc key (x :: List.filter P l))
    with (insert_by key Z.geb x (order_by_desc key (List.filter P l))).
  by rewrite IH.
Qed.
End OrderByFilter.

Lemma filter_fmap_comm {A B} (f : A -> B) (P : B -> bool) (l : list A) :
  List.filter P (f <$> l) = f <$> List.filter (fun x => P (f x)) l.
Proof.
  induction l as [|x l IH]; csimpl; [done|].
  destruct (P (f x)); csimpl; by rewrite IH.
Qed.

Lemma filter_idem {A} (P : A -> bool) (l : list A) :
  List.filter P (List.filter P l) = List.filter P l.
Proof.
  apply filter_all, Forall_forall. intros x Hx.
  apply list_elem_of_In, List.filter_In in Hx. tauto.
Qed.

Lemma delete_chat_run c w :
  delete_chat c w =
  if negb (int64 c) then (w, Raise OverflowError)
  else
    (World (Database
              (List.filter (fun r => negb (c_id r =? c)) (chats (db w)))
              (List.filter (fun r => negb (m_chat_id r =? c)) (messages (db w)))
              (seq_chats (db w)) (seq_messages (db w)))
           (gateway_log w),
     Return (RespStatus (py "deleted"))).
Proof. unfold delete_chat. by destruct (negb (int64 c)). Qed.

Lemma delete_chat_bound c w :
  int64 c = true ->
  delete_chat c w =
  (World (Database
            (List.filter (fun r => negb (c_id r =? c)) (chats (db w)))
            (List.filter (fun r => negb (m_chat_id r =? c)) (messages (db w)))
            (seq_chats (db w)) (seq_messages (db w)))
         (gateway_log w),
   Return (RespStatus (py "deleted"))).
Proof. intros Hc. by rewrite delete_chat_run, Hc. Qed.

(** C4, as the code has it. Let [c] be an id in the 64-bit range of the
    store. deleteChat(c) removes every message row with chat_id c and every
    chat row with id c, and returns "deleted". Afterwards listChats is the
    listing from before without c, getMessages(c) is empty, and a second
    deleteChat(c) returns "deleted" again and leaves the state as the first
    one left it. On an id that has no chat row and that no message row
    refers to, deleteChat changes nothing. *)
Theorem delete_chat_cascades (c : Z) (w : world) :
  int64 c = true ->
  exists w',
    delete_chat c w = (w', Return (RespStatus (py "deleted")))
    /\ messages (db w')
       = List.filter (fun r => negb (m_chat_id r =? c)) (messages (db w))
    /\ chats (db w') = List.filter (fun r => negb (c_id r =? c)) (chats (db w))
    /\ (exists before after,
          list_chats w = (w, Return (RespChats before))
          /\ list_chats w' = (w', Return (RespChats after))
          /\ after = List.filter (fun e => negb (e_id e =? c)) before
          /\ Forall (fun e => e_id e <> c) after)
    /\ get_chat_messages c w' = (w', Return (RespMessages []))
    /\ delete_chat c w' = (w', Return (RespStatus (py "deleted")))
    /\ (Forall (fun r => c_id r <> c) (chats (db w)) ->
        Forall (fun r => m_chat_id r <> c) (messages (db w)) ->
        w' = w).
Proof.
  intros Hin. eexists. rewrite (delete_chat_bound _ _ Hin). split; [reflexivity|].
  cbn [db chats messages].
  split; [reflexivity|]. split; [reflexivity|]. split; [|split; [|split]].
  - do 2 eexists. rewrite !list_chats_run. split; [reflexivity|].
    split; [reflexivity|]. unfold select_chats. cbn [db chats].
    assert (chat_entry_of <$>
              order_by_desc c_id
                (List.filter (fun r => negb (c_id r =? c)) (chats (db w)))
            = List.filter (fun e => negb (e_id e =? c))
                (chat_entry_of <$> order_by_desc c_id (chats (db w)))) as ->.
    { by rewrite order_by_desc_filter, filter_fmap_comm. }
    split; [reflexivity|].
    apply Forall_forall. intros e He.
    apply list_elem_of_In, List.filter_In in He as [_ He].
    apply negb_true_iff, Z.eqb_neq in He. done.
  - rewrite (get_chat_messages_bound _ _ Hin).
    unfold select_messages. cbn [db messages].
    rewrite (filter_none (fun r => m_chat_id r =? c)); [done|].
    apply Forall_forall. intros r Hr.
    apply list_elem_of_In, List.filter_In in Hr as [_ Hr].
    by apply negb_true_iff in Hr.
  - rewrite (delete_chat_bound _ _ Hin).
    cbn [db chats messages seq_chats seq_messages gateway_log].
    by rewrite !filter_idem.
  - intros Hc Hm. destruct w as [[cs ms s1 s2] log]. cbn in *.
    rewrite !filter_all; [done| |].
    + eapply Forall_impl; [exact Hm|]. cbn beta. intros r Hr.
      by apply negb_true_iff, Z.eqb_neq.
    + eapply Forall_impl; [exact Hc|]. cbn beta. intros r Hr.
      by apply negb_true_iff, Z.eqb_neq.
Qed.

Lemma delete_chat_cascades_witness :
  let w := World (Database [ChatRow 1 (Some (py "New Chat")) (py "t0")]
                           [MessageRow 1 1 (py "user") (py "hi") (py "t1")] 1 1) []
  in fst (delete_chat 5 w) = w.
Proof.
  intros w.
  destruct (delete_chat_cascades 5 w eq_refl)
    as (w' & Hrun & _ & _ & _ & _ & _ & Hsame).
  rewrite Hrun. apply Hsame; repeat constructor; discriminate.
Defined.

(** Chat 7 has no row, a persona chat call on it leaves a message behind,
    and deleteChat(7) then has an effect: it removes that message. *)
Lemma delete_chat_nonexistent_has_effect :
  let msg := Build_Message 7 (py "hi") in
  let w := fst (chat_real_estate msg (py "t1") (py "t2") GwRaise (World empty_db [])) in
  Forall (fun r => c_id r <> 7) (chats (db w))
  /\ messages (db w) = [MessageRow 1 7 (py "user") (py "hi") (py "t1")]
  /\ snd (delete_chat 7 w) = Return (RespStatus (py "deleted"))
  /\ messages (db (fst (delete_chat 7 w))) = []
  /\ fst (delete_chat 7 w) <> w.
Proof.
  intros msg w. repeat split; try reflexivity; [constructor|].
  intros H. apply (f_equal (fun w => length (messages (db w)))) in H.
  discriminate H.
Qed.

(** ** Title generation *)

Section TitleGeneration.
Variable affinity_eq : sqlval -> Z -> bool.

Lemma generate_title_run (data : gmap (list N) json) gw w :
  generate_title affinity_eq data gw w =
  let v := dict_get data (py "chat_id") in
  if truthy v then
    let log := gateway_log w ++ [title_request data] in
    if negb (encodable (generated_title gw))
    then (World (db w) log, Raise UnicodeEncodeError)
    else
      match sql_bind v with
      | Some sv =>
          (World (update_title affinity_eq (generated_title gw) sv (db w)) log,
           Return (RespTitle (generated_title gw)))
      | None => (World (db w) log, Raise (bind_error v))
      end
  else (w, Raise (HTTPException 400 (py "chat_id required"))).
Proof.
  unfold generate_title. cbv zeta.
  destruct (truthy (dict_get data (py "chat_id"))); cbn [negb]; [|reflexivity].
  unfold bind, try_except, completions_create, content_strip, set_title,
    ret, raise, execute, title_request.
  destruct gw as [|[content|]]; cbn [generated_title db gateway_log].
  - by destruct (sql_bind _).
  - destruct (str_truthy (strip content)); cbn [negb].
    + destruct (negb (encodable (strip content))); [done|].
      by destruct (sql_bind _).
    + by destruct (sql_bind _).
  - by destruct (sql_bind _).
Qed.

(** The same, when the title can be bound, as the fallback can. *)
Lemma generate_title_bound (data : gmap (list N) json) gw w :
  encodable (generated_title gw) = true ->
  generate_title affinity_eq data gw w =
  let v := dict_get data (py "chat_id") in
  if truthy v then
    let log := gateway_log w ++ [title_request data] in
    match sql_bind v with
    | Some sv =>
        (World (update_title affinity_eq (generated_title gw) sv (db w)) log,
         Return (RespTitle (generated_title gw)))
    | None => (World (db w) log, Raise (bind_error v))
    end
  else (w, Raise (HTTPException 400 (py "chat_id required"))).
Proof. intros He. rewrite generate_title_run. cbv zeta. by rewrite He. Qed.

(** Whatever happens, a title request leaves the database as it was or
    as one UPDATE with a non-empty title leaves it. *)
Lemma generate_title_db (data : gmap (list N) json) gw w :
  let v := dict_get data (py "chat_id") in
  let d' := db (fst (generate_title affinity_eq data gw w)) in
  d' = db w
  \/ exists sv,
       truthy v = true /\ sql_bind v = Some sv
       /\ d' = update_title affinity_eq (generated_title gw) sv (db w).
Proof.
  cbv zeta. rewrite generate_title_run. cbv zeta.
  destruct (truthy _); [|by left].
  destruct (negb _); [by left|].
  destruct (sql_bind _) as [sv|]; [|by left].
  right. by exists sv.
Qed.

Lemma generated_title_nonempty gw : generated_title gw <> [].
Proof.
  destruct gw as [|[content|]]; cbn [generated_title]; try discriminate.
  destruct (strip content) eqn:E; cbn [str_truthy]; discriminate.
Qed.

(** Rows the UPDATE selects get the title; the others, and everything
    else in the database, stay. *)
Lemma update_title_spec title sv d :
  let d' := update_title affinity_eq title sv d in
  c_id <$> chats d' = c_id <$> chats d
  /\ c_created_at <$> chats d' = c_created_at <$> chats d
  /\ Forall (fun r => c_title r = Some title)
       (List.filter (fun r => id_eq affinity_eq sv (c_id r)) (chats d'))
  /\ List.filter (fun r => negb (id_eq affinity_eq sv (c_id r))) (chats d')
     = List.filter (fun r => negb (id_eq affinity_eq sv (c_id r))) (chats d)
  /\ messages d' = messages d
  /\ seq_chats d' = seq_chats d /\ seq_messages d' = seq_messages d.
Proof.
  cbv zeta. unfold update_title. cbn [chats messages seq_chats seq_messages].
  repeat split.
  - induction (chats d) as [|r l IH]; csimpl; [done|].
    rewrite IH. by destruct (id_eq _ _ _).
  - induction (chats d) as [|r l IH]; csimpl; [done|].
    rewrite IH. by destruct (id_eq _ _ _).
  - induction (chats d) as [|r l IH]; csimpl; [constructor|].
    destruct (id_eq affinity_eq sv (c_id r)) eqn:E; cbn [c_id].
    + rewrite E. by constructor.
    + by rewrite E.
  - induction (chats d) as [|r l IH]; csimpl; [done|].
    destruct (id_eq affinity_eq sv (c_id r)) eqn:E; cbn [c_id];
      rewrite E; cbn [negb]; by rewrite IH.
Qed.

(** An UPDATE that selects no row changes nothing. *)
Lemma update_title_no_match title sv d :
  Forall (fun r => id_eq affinity_eq sv (c_id r) = false) (chats d) ->
  update_title affinity_eq title sv d = d.
Proof.
  intros H. destruct d as [cs ms s1 s2]. unfold update_title.
  cbn [chats messages seq_chats seq_messages] in *. f_equal.
  induction H as [|r l Hr Hl IH]; csimpl; [done|]. by rewrite Hr, IH.
Qed.
End TitleGeneration.

Lemma dict_get_present (d : gmap (list N) json) k v :
  d !! k = Some v -> dict_get d k = v.
Proof. unfold dict_get. by intros ->. Qed.

Lemma dict_get_absent (d : gmap (list N) json) k :
  d !! k = None -> dict_get d k = JNull.
Proof. unfold dict_get. by intros ->. Qed.

Section TitleClaims.
Variable affinity_eq : sqlval -> Z -> bool.

Lemma stored_title_update title sv c d :
  stored_title c (update_title affinity_eq title sv d) =
  if id_eq affinity_eq sv c
  then (fun _ => Some title) <$> stored_title c d
  else stored_title c d.
Proof.
  unfold stored_title, update_title. cbn [chats].
  induction (chats d) as [|r l IH]; csimpl.
  - by destruct (id_eq _ _ _).
  - destruct (id_eq affinity_eq sv (c_id r)) eqn:E; cbn [c_id];
      destruct (Z.eqb_spec (c_id r) c) as [Hc|Hc]; try exact IH.
    + by rewrite <- Hc, E.
    + by rewrite <- Hc, E.
Qed.

(** C3. When the completion client raises, or answers without content, a
    title request ends as it would have ended had the client answered
    "Conversation": the failure is caught, not passed on. A request reaches
    the client when its chat_id is truthy; when moreover the store can bind
    that chat_id (a number, a string, a boolean: any chat id), the handler
    returns the title "Conversation" after one UPDATE with that title. Every
    chat row the chat_id selects then holds "Conversation"; in particular a
    chat that exists and whose id the chat_id names has "Conversation" stored
    afterwards. *)
Theorem title_fallback_on_gateway_failure
    (data : gmap (list N) json) (w : world) :
  Forall (fun gw =>
    generate_title affinity_eq data gw w
      = generate_title affinity_eq data (GwReply (Some (py "Conversation"))) w
    /\ forall v sv,
         data !! py "chat_id" = Some v ->
         truthy v = true ->
         sql_bind v = Some sv ->
         exists w',
           generate_title affinity_eq data gw w
             = (w', Return (RespTitle (py "Conversation")))
           /\ db w' = update_title affinity_eq (py "Conversation") sv (db w)
           /\ gateway_log w' = gateway_log w ++ [title_request data]
           /\ c_id <$> chats (db w') = c_id <$> chats (db w)
           /\ Forall (fun r => c_title r = Some (py "Conversation"))
                (List.filter (fun r => id_eq affinity_eq sv (c_id r))
                             (chats (db w')))
           /\ (forall c, id_eq affinity_eq sv c = true ->
                         stored_title c (db w) <> None ->
                         stored_title c (db w') = Some (Some (py "Conversation"))))
    [GwRaise; GwReply None].
Proof.
  assert (forall gw, generated_title gw = py "Conversation" ->
    generate_title affinity_eq data gw w
      = generate_title affinity_eq data (GwReply (Some (py "Conversation"))) w
    /\ forall v sv,
         data !! py "chat_id" = Some v ->
         truthy v = true ->
         sql_bind v = Some sv ->
         exists w',
           generate_title affinity_eq data gw w
             = (w', Return (RespTitle (py "Conversation")))
           /\ db w' = update_title affinity_eq (py "Conversation") sv (db w)
           /\ gateway_log w' = gateway_log w ++ [title_request data]
           /\ c_id <$> chats (db w') = c_id <$> chats (db w)
           /\ Forall (fun r => c_title r = Some (py "Conversation"))
                (List.filter (fun r => id_eq affinity_eq sv (c_id r))
                             (chats (db w')))
           /\ (forall c, id_eq affinity_eq sv c = true ->
                         stored_title c (db w) <> None ->
                         stored_title c (db w') = Some (Some (py "Conversation")))) as H.
  { intros gw Hgw. split.
    - rewrite !generate_title_run. by rewrite Hgw.
    - intros v sv Hv Ht Hb.
      eexists. rewrite generate_title_run. cbv zeta.
      rewrite (dict_get_present _ _ _ Hv), Ht, Hb, Hgw.
      split; [reflexivity|]. cbn [db gateway_log].
      pose proof (update_title_spec affinity_eq (py "Conversation") sv (db w))
        as (Hids & _ & Hsel & _).
      repeat split; try done.
      intros c Hc Hex. rewrite stored_title_update, Hc.
      destruct (stored_title c (db w)); [done|by destruct Hex]. }
  repeat constructor; by apply H.
Qed.

(** C7, as the code has it. [save_message] does not look at the chats
    table. Let [c] be an id in the 64-bit range of the store, and let the
    texts be ones the store can encode. Whatever [c] is, and so also when no
    chat row has id [c], [save_message] returns normally and adds the one
    row (c, sender, text, now) under a new rowid, leaving the chats alone.
    When no chat row has id [c], the UPDATE of a title for [c] returns
    normally and leaves the database as it was, and a title request for [c]
    answers with its title all the same. *)
Theorem dangling_chat_id_accepted (c : Z) (sender text now title : list N)
    (w : world) :
  int64 c = true ->
  encodable sender = true -> encodable text = true -> encodable title = true ->
  (exists w',
      save_message c sender text now w = (w', Return tt)
      /\ messages (db w')
         = messages (db w) ++
           [MessageRow (next_rowid (seq_messages (db w)) (m_id <$> messages (db w)))
                       c sender text now]
      /\ chats (db w') = chats (db w))
  /\ (Forall (fun r => c_id r <> c) (chats (db w)) ->
      set_title affinity_eq title (JInt c) w = (w, Return tt)
      /\ forall (data : gmap (list N) json) gw,
           data !! py "chat_id" = Some (JInt c) -> c <> 0 ->
           encodable (generated_title gw) = true ->
           exists w',
             generate_title affinity_eq data gw w
               = (w', Return (RespTitle (generated_title gw)))
             /\ db w' = db w).
Proof.
  intros Hc Hs Ht Htitle. split.
  - eexists. rewrite save_message_run, Hc, Hs, Ht. split; [reflexivity|]. done.
  - intros Hnone.
    assert (forall t, update_title affinity_eq t (SqlInt c) (db w) = db w) as Hupd.
    { intros t. apply update_title_no_match.
      eapply Forall_impl; [exact Hnone|]. cbn. intros r Hr. by apply Z.eqb_neq. }
    split.
    + unfold set_title, execute. cbn [sql_bind]. rewrite Htitle, Hc. cbn [negb].
      rewrite Hupd. by destruct w.
    + intros data gw Hv Hne He. eexists. rewrite (generate_title_bound _ _ _ _ He).
      cbv zeta. rewrite (dict_get_present _ _ _ Hv). cbn [truthy sql_bind].
      rewrite (proj2 (Z.eqb_neq _ _) Hne), Hc. cbn [negb].
      split; [reflexivity|]. cbn [db]. apply Hupd.
Qed.

(** C8. A title request whose body has no chat_id is refused with status
    400 and the detail "chat_id required"; the world is left as it was: no
    call to the completion client, no change to the database. *)
Theorem title_without_chat_id_rejected
    (data : gmap (list N) json) (gw : gw_outcome) (w : world) :
  data !! py "chat_id" = None ->
  generate_title affinity_eq data gw w
    = (w, Raise (HTTPException 400 (py "chat_id required")))
  /\ gateway_log (fst (generate_title affinity_eq data gw w)) = gateway_log w
  /\ db (fst (generate_title affinity_eq data gw w)) = db w.
Proof.
  intros Hv.
  assert (generate_title affinity_eq data gw w
          = (w, Raise (HTTPException 400 (py "chat_id required")))) as ->.
  { rewrite generate_title_run. cbv zeta. by rewrite (dict_get_absent _ _ Hv). }
  done.
Qed.

(** C9. A title request whose chat_id is present but falsy (0, 0.0, false,
    null, an empty string, list or object) is refused exactly as one without
    the field: status 400, detail "chat_id required", the world unchanged.
    The handler looks at the truth value: a request is refused this way if
    and only if its chat_id, or [None] when absent, is falsy. *)
Theorem title_with_falsy_chat_id_rejected
    (data : gmap (list N) json) (v : json) (gw : gw_outcome) (w : world) :
  data !! py "chat_id" = Some v ->
  truthy v = false ->
  generate_title affinity_eq data gw w
    = (w, Raise (HTTPException 400 (py "chat_id required")))
  /\ generate_title affinity_eq data gw w
     = generate_title affinity_eq (delete (py "chat_id") data) gw w
  /\ (forall (data' : gmap (list N) json) gw' w',
        snd (generate_title affinity_eq data' gw' w')
          = Raise (HTTPException 400 (py "chat_id required"))
        <-> truthy (dict_get data' (py "chat_id")) = false).
Proof.
  intros Hv Hf. split; [|split].
  - rewrite generate_title_run. cbv zeta.
    by rewrite (dict_get_present _ _ _ Hv), Hf.
  - rewrite !generate_title_run. cbv zeta.
    rewrite (dict_get_present _ _ _ Hv), Hf.
    rewrite (dict_get_absent (delete (py "chat_id") data)); [done|].
    apply lookup_delete_eq.
  - intros data' gw' w'. rewrite generate_title_run. cbv zeta.
    destruct (truthy (dict_get data' (py "chat_id"))); [|done].
    destruct (negb _); [split; discriminate|].
    destruct (sql_bind _); cbn [snd]; [split; discriminate|].
    split; [|discriminate]. by destruct (dict_get data' (py "chat_id")).
Qed.

(** C10. When the completion client answers with content that is empty
    once stripped, the handler does what it does when the client fails: it
    takes "Conversation" as the title, so that, when the UPDATE goes through,
    "Conversation" is returned and stored. Whatever the request and the
    answer, a title that the handler returns is not the empty string, and it
    is the title of every chat row the request selected. *)
Theorem blank_title_replaced_by_fallback
    (data : gmap (list N) json) (gw : gw_outcome) (w : world) :
  (forall content,
      strip content = [] ->
      generate_title affinity_eq data (GwReply (Some content)) w
        = generate_title affinity_eq data GwRaise w
      /\ forall v sv,
           data !! py "chat_id" = Some v -> truthy v = true ->
           sql_bind v = Some sv ->
           generate_title affinity_eq data (GwReply (Some content)) w
             = (World (update_title affinity_eq (py "Conversation") sv (db w))
                      (gateway_log w ++ [title_request data]),
                Return (RespTitle (py "Conversation"))))
  /\ (forall w' title,
        generate_title affinity_eq data gw w = (w', Return (RespTitle title)) ->
        title <> []
        /\ exists sv,
             sql_bind (dict_get data (py "chat_id")) = Some sv
             /\ db w' = update_title affinity_eq title sv (db w)
             /\ Forall (fun r => c_title r = Some title /\ c_title r <> Some [])
                  (List.filter (fun r => id_eq affinity_eq sv (c_id r))
                               (chats (db w')))).
Proof.
  split.
  - intros content Hs. split.
    + rewrite !generate_title_run. cbn [generated_title]. by rewrite Hs.
    + intros v sv Hv Ht Hb. rewrite generate_title_run. cbv zeta.
      rewrite (dict_get_present _ _ _ Hv), Ht, Hb.
      cbn [generated_title]. by rewrite Hs.
  - intros w' title. rewrite generate_title_run. cbv zeta.
    destruct (truthy _); [|discriminate].
    destruct (negb _); [discriminate|].
    destruct (sql_bind _) as [sv|]; [|discriminate].
    intros [= <- <-]. split; [apply generated_title_nonempty|].
    exists sv. split; [done|]. split; [done|]. cbn [db].
    pose proof (update_title_spec affinity_eq (generated_title gw) sv (db w))
      as (_ & _ & Hsel & _).
    eapply Forall_impl; [exact Hsel|]. cbn beta. intros r ->.
    split; [done|]. intros [= H]. by apply generated_title_nonempty in H.
Qed.

End TitleClaims.

Lemma title_fallback_on_gateway_failure_witness :
  let data : gmap (list N) json :=
    {[ py "chat_id" := JInt 1; py "message" := JStr (py "hello") ]} in
  let w := World (Database [ChatRow 1 (Some (py "New Chat")) (py "t0")] [] 1 0) [] in
  generate_title (fun _ _ => false) data GwRaise w
  = (World (Database [ChatRow 1 (Some (py "Conversation")) (py "t0")] [] 1 0)
           [title_request data],
     Return (RespTitle (py "Conversation"))).
Proof.
  intros data w.
  assert (data !! py "chat_id" = Some (JInt 1)) as Hv by (by vm_compute).
  pose proof (title_fallback_on_gateway_failure (fun _ _ => false) data w) as H.
  apply Forall_cons in H as [[_ H] _].
  destruct (H (JInt 1) (SqlInt 1) Hv eq_refl eq_refl)
    as (w' & Hrun & Hdb & Hlog & _).
  rewrite Hrun. destruct w' as [d' log']. cbn [db gateway_log] in Hdb, Hlog.
  by rewrite Hdb, Hlog.
Defined.

Lemma dangling_chat_id_accepted_witness :
  let w := World (Database [ChatRow 1 (Some (py "New Chat")) (py "t0")] [] 1 0) [] in
  (exists w',
      save_message 9 (py "user") (py "hi") (py "t1") w = (w', Return tt)
      /\ messages (db w') = [MessageRow 1 9 (py "user") (py "hi") (py "t1")]
      /\ chats (db w') = chats (db w))
  /\ set_title (fun _ _ => false) (py "Trip to Rome") (JInt 9) w = (w, Return tt).
Proof.
  intros w.
  destruct (dangling_chat_id_accepted (fun _ _ => false) 9 (py "user") (py "hi")
              (py "t1") (py "Trip to Rome") w eq_refl eq_refl eq_refl eq_refl)
    as [Hsave Htitle].
  split; [exact Hsave|].
  apply Htitle. repeat constructor. discriminate.
Defined.

(** No chat has the id 2^63, and the operations that refer to it do not
    pass silently: [save_message] raises and inserts nothing, and the UPDATE
    of a title raises. *)
Lemma dangling_chat_id_out_of_range_raises :
  let w := World (Database [ChatRow 1 (Some (py "New Chat")) (py "t0")] [] 1 0) [] in
  Forall (fun r => c_id r <> 2 ^ 63) (chats (db w))
  /\ save_message (2 ^ 63) (py "user") (py "hi") (py "t1") w
     = (w, Raise OverflowError)
  /\ set_title (fun _ _ => false) (py "Trip to Rome") (JInt (2 ^ 63)) w
     = (w, Raise OverflowError).
Proof. intros w. repeat split; repeat constructor; discriminate. Qed.

Lemma title_without_chat_id_rejected_witness :
  let data : gmap (list N) json := {[ py "message" := JStr (py "hello") ]} in
  let w := World empty_db [] in
  generate_title (fun _ _ => false) data (GwReply (Some (py "Greeting"))) w
  = (w, Raise (HTTPException 400 (py "chat_id required"))).
Proof.
  intros data w.
  apply (title_without_chat_id_rejected (fun _ _ => false) data).
  by vm_compute.
Defined.

Lemma title_with_falsy_chat_id_rejected_witness :
  let data : gmap (list N) json :=
    {[ py "chat_id" := JInt 0; py "message" := JStr (py "hello") ]} in
  let w := World empty_db [] in
  generate_title (fun _ _ => false) data (GwReply (Some (py "Greeting"))) w
  = (w, Raise (HTTPException 400 (py "chat_id required"))).
Proof.
  intros data w.
  apply (title_with_falsy_chat_id_rejected (fun _ _ => false) data (JInt 0)).
  - by vm_compute.
  - reflexivity.
Defined.

Lemma blank_title_replaced_by_fallback_witness :
  let data : gmap (list N) json :=
    {[ py "chat_id" := JInt 1; py "message" := JStr (py "hello") ]} in
  let w := World (Database [ChatRow 1 (Some (py "New Chat")) (py "t0")] [] 1 0) [] in
  generate_title (fun _ _ => false) data (GwReply (Some (py "  "))) w
  = (World (Database [ChatRow 1 (Some (py "Conversation")) (py "t0")] [] 1 0)
           [title_request data],
     Return (RespTitle (py "Conversation"))).
Proof.
  intros data w.
  assert (data !! py "chat_id" = Some (JInt 1)) as Hv by (by vm_compute).
  exact (proj2 (proj1 (blank_title_replaced_by_fallback (fun _ _ => false)
                         data GwRaise w)
                      (py "  ") eq_refl)
               (JInt 1) (SqlInt 1) Hv eq_refl eq_refl).
Defined.

(** ** C6: when a stored title changes *)

Lemma find_app_l {A} (f : A -> bool) l l' x :
  List.find f l = Some x -> List.find f (l ++ l') = Some x.
Proof.
  induction l as [|y l IH]; simpl; [discriminate|].
  destruct (f y); [done|exact IH].
Qed.

Lemma find_filter_implied {A} (f g : A -> bool) l :
  (forall x, f x = true -> g x = true) ->
  List.find f (List.filter g l) = List.find f l.
Proof.
  intros Hfg. induction l as [|y l IH]; simpl; [done|].
  destruct (g y) eqn:Hg; simpl.
  - destruct (f y); [done|exact IH].
  - destruct (f y) eqn:Hf; [|exact IH].
    apply Hfg in Hf. congruence.
Qed.

Lemma find_filter_excluded {A} (f g : A -> bool) l :
  (forall x, f x = true -> g x = false) ->
  List.find f (List.filter g l) = None.
Proof.
  intros Hfg. induction l as [|y l IH]; simpl; [done|].
  destruct (g y) eqn:Hg; simpl; [|exact IH].
  destruct (f y) eqn:Hf; [|exact IH].
  apply Hfg in Hf. congruence.
Qed.

Section TitleHistory.
Variable affinity_eq : sqlval -> Z -> bool.

Lemma title_changed_same_chats c r w :
  chats (db (fst (handle affinity_eq r w))) = chats (db w) ->
  title_changed affinity_eq c r w = false.
Proof.
  intros H. unfold title_changed, stored_title. rewrite H.
  destruct (List.find _ _); cbn; [|done].
  apply bool_decide_eq_false. by intros [].
Qed.

Lemma title_changed_needs_retitle c r w :
  title_changed affinity_eq c r w = true -> retitles affinity_eq c r = true.
Proof.
  destruct r as [now|data gw| |c'|c'|p msg now1 now2 gw|].
  - (* createChat appends a row: an existing one keeps its place *)
    unfold title_changed, stored_title. cbn [handle].
    rewrite create_chat_run. cbn [fst db chats].
    destruct (List.find _ (chats (db w))) as [r|] eqn:E; [|done].
    rewrite (find_app_l _ _ _ _ E). cbn.
    intros H. apply bool_decide_eq_true in H. by destruct H.
  - unfold title_changed. cbn [handle retitles].
    pose proof (generate_title_db affinity_eq data gw w) as Hd. cbv zeta in Hd.
    destruct Hd as [->|(sv & Ht & Hb & ->)].
    + destruct (stored_title c (db w)); [|done].
      intros H. apply bool_decide_eq_true in H. by destruct H.
    + rewrite Ht, Hb. cbn [andb]. rewrite stored_title_update.
      destruct (id_eq affinity_eq sv c); [done|].
      destruct (stored_title c (db w)); [|done].
      intros H. apply bool_decide_eq_true in H. by destruct H.
  - by rewrite title_changed_same_chats.
  - rewrite title_changed_same_chats; [done|].
    cbn [handle]. by rewrite get_chat_messages_world.
  - (* deleteChat drops rows: the row of [c] goes or stays as it is *)
    unfold title_changed, stored_title. cbn [handle].
    rewrite delete_chat_run. destruct (negb (int64 c')); cbn [fst db chats].
    { destruct (List.find _ _); cbn; [|done].
      intros H. apply bool_decide_eq_true in H. by destruct H. }
    destruct (Z.eqb_spec c c') as [->|Hne].
    + rewrite find_filter_excluded.
      * by destruct (List.find _ _).
      * intros x Hx. by rewrite Hx.
    + rewrite find_filter_implied.
      * destruct (List.find _ _); cbn; [|done].
        intros H. apply bool_decide_eq_true in H. by destruct H.
      * intros x Hx. apply Z.eqb_eq in Hx. apply negb_true_iff, Z.eqb_neq. lia.
  - rewrite title_changed_same_chats; [done|].
    cbn [handle]. destruct (persona_chat_is_chat_with p) as [sp ->].
    apply chat_with_chats.
  - by rewrite title_changed_same_chats.
Qed.

(** C6, as the code has it. While any sequence of requests is served, the
    title stored for a chat changes only in a title-generation request whose
    chat_id selects that chat, and at most once in each such request. The
    number of such requests is not limited, so neither is the number of
    changes. *)
Theorem title_changes_only_by_generation (c : Z) :
  (forall r w,
      title_changed affinity_eq c r w && negb (retitles affinity_eq c r) = false)
  /\ (forall rs w,
        (title_updates affinity_eq c rs w
         <= length (List.filter (retitles affinity_eq c) rs))%nat).
Proof.
  split.
  - intros r w. destruct (title_changed affinity_eq c r w) eqn:E; [|done].
    by rewrite (title_changed_needs_retitle _ _ _ E).
  - induction rs as [|r rs IH]; intros w; cbn [title_updates List.filter]; [done|].
    specialize (IH (fst (handle affinity_eq r w))).
    destruct (title_changed affinity_eq c r w) eqn:E.
    + rewrite (title_changed_needs_retitle _ _ _ E). cbn [length]. lia.
    + destruct (retitles affinity_eq c r); cbn [length]; lia.
Qed.

End TitleHistory.

(** A chat is created and then given a title twice: its stored title
    changes twice. *)
Lemma title_updated_twice :
  let data : gmap (list N) json :=
    {[ py "chat_id" := JInt 1; py "message" := JStr (py "hello") ]} in
  let rs := [PostChatNew (py "t0");
             PostChatTitle data (GwReply (Some (py "Greeting")));
             PostChatTitle data (GwReply (Some (py "Trip to Rome")))] in
  let aff := fun (_ : sqlval) (_ : Z) => false in
  let w0 := World empty_db [] in
  stored_title 1 (db (serve aff (take 1 rs) w0)) = Some (Some (py "New Chat"))
  /\ stored_title 1 (db (serve aff (take 2 rs) w0)) = Some (Some (py "Greeting"))
  /\ stored_title 1 (db (serve aff rs w0)) = Some (Some (py "Trip to Rome"))
  /\ title_updates aff 1 rs w0 = 2%nat
  /\ (title_updates aff 1 rs w0 <=? 1)%nat = false.
Proof. vm_compute. repeat split. Qed.

(** * Further properties of the handlers *)

(** ** Stripping *)

Lemma lstrip_head s :
  match lstrip s with c :: _ => isspace c = false | [] => True end.
Proof.
  induction s as [|c s IH]; cbn [lstrip]; [done|].
  destruct (isspace c) eqn:E; [exact IH|exact E].
Qed.

Lemma lstrip_suffix s : exists k, s = k ++ lstrip s.
Proof.
  induction s as [|c s [k IH]]; cbn [lstrip]; [by exists []|].
  destruct (isspace c).
  - exists (c :: k). cbn. by rewrite <- IH.
  - by exists [].
Qed.

Lemma rstrip_cons c s :
  rstrip (c :: s) =
  match rstrip s with
  | [] => if isspace c then [] else [c]
  | _ :: _ => c :: rstrip s
  end.
Proof. reflexivity. Qed.

Lemma rstrip_last s e : last (rstrip s) = Some e -> isspace e = false.
Proof.
  induction s as [|c s IH]; [done|].
  rewrite rstrip_cons. destruct (rstrip s) as [|d t] eqn:E.
  - destruct (isspace c) eqn:Hc; [done|]. by intros [= <-].
  - rewrite last_cons_cons. exact IH.
Qed.

Lemma strip_trimmed s : trimmed (strip s) = true.
Proof.
  unfold strip, trimmed.
  pose proof (lstrip_head (rstrip s)) as Hh.
  destruct (lstrip_suffix (rstrip s)) as [k Hk].
  destruct (lstrip (rstrip s)) as [|c t] eqn:E; [done|].
  destruct (last (c :: t)) as [e|] eqn:El; [|done].
  rewrite Hh. cbn [negb andb].
  assert (last (rstrip s) = Some e) as Hl.
  { rewrite Hk, last_app, El. done. }
  by rewrite (rstrip_last _ _ Hl).
Qed.

Lemma rstrip_fixed s e : last s = Some e -> isspace e = false -> rstrip s = s.
Proof.
  induction s as [|c s IH]; [done|]. intros Hl He.
  rewrite rstrip_cons. destruct s as [|d t].
  - cbn in Hl. injection Hl as ->. cbn [rstrip fold_right]. by rewrite He.
  - rewrite last_cons_cons in Hl. by rewrite (IH Hl He).
Qed.

Lemma trimmed_strip s : trimmed s = true -> strip s = s.
Proof.
  unfold trimmed, strip. destruct s as [|c t]; [done|].
  destruct (last (c :: t)) as [e|] eqn:El.
  - intros H. apply andb_true_iff in H as [Hc He].
    apply negb_true_iff in Hc, He.
    rewrite (rstrip_fixed _ _ El He). cbn [lstrip]. by rewrite Hc.
  - by apply last_None in El.
Qed.

Lemma rstrip_blank s : Forall (fun c => isspace c = true) s -> rstrip s = [].
Proof.
  induction 1 as [|c s Hc Hs IH]; [done|].
  by rewrite rstrip_cons, IH, Hc.
Qed.

Lemma strip_blank_all s : Forall (fun c => isspace c = true) s -> strip s = [].
Proof. intros H. unfold strip. by rewrite (rstrip_blank _ H). Qed.

(** ** The reply of the chat model *)

(** X1. [call_chat_model] makes one call, with the model "gpt-4o-mini", the
    given system prompt, the user text behind "User message: " and no token
    limit, and leaves the database alone. When the client answers with
    content, what it returns is that content stripped: it neither starts nor
    ends with whitespace, stripping it again changes nothing, and content
    made of whitespace only gives the empty string (no fallback is put in
    its place). When the client raises or answers without content, it
    raises, after the same one call. *)
Theorem call_chat_model_reply (sp user_text : list N) (w : world) :
  let req := GwRequest (py "gpt-4o-mini") sp
                       (JStr (py "User message: " ++ user_text)) None in
  let w' := World (db w) (gateway_log w ++ [req]) in
  (forall content,
      call_chat_model sp user_text (GwReply (Some content)) w
        = (w', Return (strip content))
      /\ trimmed (strip content) = true
      /\ strip (strip content) = strip content
      /\ (Forall (fun c => isspace c = true) content -> strip content = []))
  /\ Forall (fun gw => exists e, call_chat_model sp user_text gw w = (w', Raise e))
       [GwRaise; GwReply None].
Proof.
  intros req w'. split.
  - intros content. split; [reflexivity|].
    split; [apply strip_trimmed|].
    split; [apply trimmed_strip, strip_trimmed|apply strip_blank_all].
  - repeat constructor; eexists; reflexivity.
Qed.

Lemma call_chat_model_reply_witness :
  call_chat_model (py "You are a guide.") (py "hi") (GwReply (Some (py " "))) (World empty_db [])
  = (World empty_db
           [GwRequest (py "gpt-4o-mini") (py "You are a guide.")
                      (JStr (py "User message: hi")) None],
     Return [])
  /\ strip (py " ") = [].
Proof.
  split; [reflexivity|].
  apply (call_chat_model_reply (py "You are a guide.") (py "hi") (World empty_db [])).
  repeat constructor.
Defined.

(** X2. Take a persona chat call whose chat_id and message the store can
    bind, answered with content that the store can encode once stripped.
    When the content is made of whitespace only, the call stores a "bot" row
    whose text is the empty string and returns the empty reply; in every
    case the reply returned and stored neither starts nor ends with
    whitespace. *)
Theorem persona_chat_blank_reply (p : persona) (msg : Message)
    (now1 now2 content : list N) (w : world) :
  int64 (chat_id msg) = true ->
  encodable (message msg) = true ->
  encodable (strip content) = true ->
  exists w' reply,
    persona_chat p msg now1 now2 (GwReply (Some content)) w
      = (w', Return (RespReply reply))
    /\ trimmed reply = true
    /\ last (messages (db w'))
       = Some (MessageRow
                 (next_rowid (seq_messages (db w)) (m_id <$> messages (db w)) + 1)
                 (chat_id msg) (py "bot") reply now2)
    /\ (Forall (fun c => isspace c = true) content -> reply = []).
Proof.
  intros Hc Hm Hr.
  destruct (persona_chat_is_chat_with p) as [sp ->].
  do 2 eexists. rewrite (chat_with_bound _ _ _ _ _ _ Hc Hm). cbv zeta.
  rewrite Hr. cbn [negb]. split; [reflexivity|].
  split; [apply strip_trimmed|]. split; [|apply strip_blank_all].
  cbn [db insert_message messages seq_messages].
  rewrite last_snoc, fmap_app. cbn [fmap list_fmap m_id].
  pose proof (next_rowid_succ (seq_messages (db w)) (m_id <$> messages (db w))) as Hn.
  cbv zeta in Hn. by rewrite Hn.
Qed.

Lemma persona_chat_blank_reply_witness :
  snd (chat_fitness_coach (Build_Message 1 (py "plan?")) (py "t1") (py "t2")
         (GwReply (Some (py "  "))) (World empty_db []))
  = Return (RespReply []).
Proof.
  destruct (persona_chat_blank_reply FitnessCoach (Build_Message 1 (py "plan?"))
              (py "t1") (py "t2") (py "  ") (World empty_db [])
              eq_refl eq_refl eq_refl)
    as (w' & reply & Hrun & _ & _ & Hblank).
  change (persona_chat FitnessCoach) with chat_fitness_coach in Hrun.
  rewrite Hrun, Hblank; [done|]. repeat constructor.
Defined.

(** ** Primary keys *)

Lemma keys_ok_insert seq ids :
  NoDup ids ->
  keys_ok (next_rowid seq ids) (ids ++ [next_rowid seq ids]).
Proof.
  intros Hnd. pose proof (next_rowid_fresh seq ids) as Hfresh. split.
  - apply NoDup_app. split; [done|]. split; [|apply NoDup_singleton].
    intros x Hx Hin. apply list_elem_of_singleton in Hin as ->.
    rewrite Forall_forall in Hfresh. specialize (Hfresh _ Hx). lia.
  - apply Forall_app. split.
    + eapply Forall_impl; [exact Hfresh|]. cbn beta. intros; lia.
    + by constructor.
Qed.

Lemma keys_ok_filter {A} (f : A -> Z) (P : A -> bool) seq l :
  keys_ok seq (f <$> l) -> keys_ok seq (f <$> List.filter P l).
Proof.
  intros [Hnd Hb].
  assert (f <$> List.filter P l `sublist_of` f <$> l) as Hsub.
  { clear. induction l as [|x l IH]; csimpl; [done|].
    destruct (P x); csimpl; by constructor. }
  split.
  - by eapply sublist_NoDup.
  - apply Forall_forall. intros x Hx. rewrite Forall_forall in Hb.
    apply Hb. by eapply elem_of_sublist.
Qed.

Lemma wf_insert_message c sender text now d :
  wf d -> wf (insert_message c sender text now d).
Proof.
  intros [Hc [Hnd _]]. split; [exact Hc|].
  cbn [insert_message messages seq_messages]. rewrite fmap_app.
  by apply keys_ok_insert.
Qed.

Lemma update_title_ids aff title sv d :
  c_id <$> chats (update_title aff title sv d) = c_id <$> chats d.
Proof. apply (update_title_spec aff title sv d). Qed.

Section KeysKept.
Variable affinity_eq : sqlval -> Z -> bool.

Lemma wf_handle r w : wf (db w) -> wf (db (fst (handle affinity_eq r w))).
Proof.
  intros Hwf.
  destruct r as [now|data gw| |c'|c'|p msg now1 now2 gw|]; cbn [handle]; try done.
  - rewrite create_chat_run. cbn [fst db]. destruct Hwf as [[Hnd _] Hm].
    split; [|exact Hm]. cbn [chats seq_chats]. rewrite fmap_app.
    by apply keys_ok_insert.
  - pose proof (generate_title_db affinity_eq data gw w) as Hd. cbv zeta in Hd.
    destruct Hd as [->|(sv & _ & _ & ->)]; [done|].
    destruct Hwf as [Hc Hm]. split; [|exact Hm].
    by rewrite update_title_ids.
  - by rewrite get_chat_messages_world.
  - rewrite delete_chat_run. destruct (negb (int64 c')); [done|].
    cbn [fst db]. destruct Hwf as [Hc Hm].
    split; cbn [chats messages seq_chats seq_messages]; by apply keys_ok_filter.
  - destruct (persona_chat_is_chat_with p) as [sp ->].
    pose proof (chat_with_db sp msg now1 now2 gw w) as Hd. cbv zeta in Hd.
    destruct Hd as [->|[->|[reply ->]]];
      repeat apply wf_insert_message; done.
Qed.

Lemma wf_serve rs : forall w, wf (db w) -> wf (db (serve affinity_eq rs w)).
Proof.
  induction rs as [|r rs IH]; intros w Hwf; [done|].
  apply (IH (fst (handle affinity_eq r w))), wf_handle, Hwf.
Qed.

(** X3. The process starts on a missing file, or on a file whose two
    tables have pairwise distinct rowids, none above the table's
    AUTOINCREMENT counter. Whatever requests it then serves, with whatever
    answers of the completion client, that stays so: no handler ever
    produces two rows with the same id. *)
Theorem primary_keys_stay_distinct (file : option database)
    (rs : list request) (log : list gw_request) :
  match file with Some d => wf d | None => True end ->
  let d := db (serve affinity_eq rs (World (init_db file) log)) in
  NoDup (c_id <$> chats d) /\ Forall (fun i => i <= seq_chats d) (c_id <$> chats d)
  /\ NoDup (m_id <$> messages d)
  /\ Forall (fun i => i <= seq_messages d) (m_id <$> messages d).
Proof.
  intros Hfile d.
  assert (wf d) as [[? ?] [? ?]]; [|done].
  apply wf_serve. cbn [db]. destruct file as [d0|]; [exact Hfile|].
  repeat split; constructor.
Qed.

End KeysKept.

Lemma primary_keys_stay_distinct_witness :
  let rs := [PostChatNew (py "t0");
             PostPersonaChat Restaurant (Build_Message 1 (py "menu?"))
                             (py "t1") (py "t2") (GwReply (Some (py "Soup.")));
             DeleteChat 1; PostChatNew (py "t3")] in
  let d := db (serve (fun _ _ => false) rs (World (init_db None) [])) in
  NoDup (c_id <$> chats d) /\ Forall (fun i => i <= seq_chats d) (c_id <$> chats d)
  /\ NoDup (m_id <$> messages d)
  /\ Forall (fun i => i <= seq_messages d) (m_id <$> messages d).
Proof.
  intros rs. exact (primary_keys_stay_distinct (fun _ _ => false) None rs [] I).
Defined.

Lemma sorted_desc_strict {A} (key : A -> Z) (l : list A) :
  StronglySorted (fun a b => key a >= key b) l ->
  NoDup (key <$> l) ->
  StronglySorted Z.gt (key <$> l).
Proof.
  induction 1 as [|x l Hl IH Hx]; csimpl; [constructor|].
  intros Hnd. apply NoDup_cons in Hnd as [Hnotin Hnd].
  constructor; [by apply IH|].
  apply Forall_fmap, Forall_forall. intros y Hy. cbn.
  rewrite Forall_forall in Hx. specialize (Hx _ Hy).
  assert (key x <> key y); [|lia].
  intros Heq. apply Hnotin. rewrite Heq. by apply list_elem_of_fmap_2.
Qed.

Lemma sorted_asc_strict {A} (key : A -> Z) (l : list A) :
  StronglySorted (fun a b => key a <= key b) l ->
  NoDup (key <$> l) ->
  StronglySorted Z.lt (key <$> l).
Proof.
  induction 1 as [|x l Hl IH Hx]; csimpl; [constructor|].
  intros Hnd. apply NoDup_cons in Hnd as [Hnotin Hnd].
  constructor; [by apply IH|].
  apply Forall_fmap, Forall_forall. intros y Hy. cbn.
  rewrite Forall_forall in Hx. specialize (Hx _ Hy).
  assert (key x <> key y); [|lia].
  intros Heq. apply Hnotin. rewrite Heq. by apply list_elem_of_fmap_2.
Qed.

(** X4. When the rowids of the tables are pairwise distinct, listChats
    shows every chat once, in strictly descending id order, and
    getMessages(c), for [c] in the 64-bit range of the store, gives rows in
    strictly ascending id order: no entry is repeated and no two share a
    position in the order. *)
Theorem listings_strictly_ordered (w : world) :
  wf (db w) ->
  (exists entries,
      list_chats w = (w, Return (RespChats entries))
      /\ StronglySorted Z.gt (e_id <$> entries)
      /\ e_id <$> entries ≡ₚ c_id <$> chats (db w))
  /\ (forall c, int64 c = true ->
        exists rows,
          get_chat_messages c w = (w, Return (RespMessages rows))
          /\ StronglySorted Z.lt (m_id <$> rows)).
Proof.
  intros [[Hc _] [Hm Hmb]]. split.
  - eexists. split; [apply list_chats_run|].
    rewrite <- list_fmap_compose.
    change (e_id ∘ chat_entry_of) with c_id.
    assert (c_id <$> select_chats (db w) ≡ₚ c_id <$> chats (db w)) as Hp.
    { apply fmap_Permutation, order_by_Permutation. }
    split; [|exact Hp].
    apply sorted_desc_strict; [apply order_by_desc_sorted|].
    by rewrite Hp.
  - intros c Hin. eexists. split; [by apply get_chat_messages_bound|].
    apply sorted_asc_strict; [apply order_by_asc_sorted|].
    unfold select_messages, order_by_asc.
    rewrite (order_by_Permutation m_id Z.leb).
    apply (keys_ok_filter m_id _ (seq_messages (db w))). by split.
Qed.

Lemma listings_strictly_ordered_witness :
  let w := World (Database [ChatRow 1 (Some (py "New Chat")) (py "t0");
                            ChatRow 2 (Some (py "Rome")) (py "t1")]
                           [MessageRow 1 2 (py "user") (py "hi") (py "t2")] 2 1) [] in
  list_chats w
  = (w, Return (RespChats [ChatEntry 2 (py "Rome") (py "t1");
                           ChatEntry 1 (py "New Chat") (py "t0")]))
  /\ exists entries,
      list_chats w = (w, Return (RespChats entries))
      /\ StronglySorted Z.gt (e_id <$> entries)
      /\ e_id <$> entries ≡ₚ c_id <$> chats (db w).
Proof.
  intros w. split; [reflexivity|].
  apply (listings_strictly_ordered w).
  repeat split; cbn; try (apply (bool_decide_unpack _); by vm_compute);
    repeat constructor; lia.
Defined.

(** ** Ids are not given twice *)

Lemma next_rowid_above_seq seq ids : seq < next_rowid seq ids.
Proof.
  unfold next_rowid.
  assert (seq <= fold_right Z.max seq ids); [|lia].
  induction ids as [|y ids IH]; cbn [fold_right]; [done|].
  etrans; [exact IH|apply Z.le_max_r].
Qed.

Section IdsNotReused.
Variable affinity_eq : sqlval -> Z -> bool.

Lemma seq_chats_handle r w :
  seq_chats (db w) <= seq_chats (db (fst (handle affinity_eq r w))).
Proof.
  destruct r as [now|data gw| |c'|c'|p msg now1 now2 gw|]; cbn [handle]; try done.
  - rewrite create_chat_run. cbn [fst db seq_chats].
    pose proof (next_rowid_above_seq (seq_chats (db w)) (c_id <$> chats (db w))).
    lia.
  - pose proof (generate_title_db affinity_eq data gw w) as Hd. cbv zeta in Hd.
    by destruct Hd as [->|(sv & _ & _ & ->)].
  - by rewrite get_chat_messages_world.
  - rewrite delete_chat_run. by destruct (negb (int64 c')).
  - destruct (persona_chat_is_chat_with p) as [sp ->].
    by rewrite (proj2 (chat_with_chats sp msg now1 now2 gw w)).
Qed.

Lemma seq_chats_serve rs : forall w,
  seq_chats (db w) <= seq_chats (db (serve affinity_eq rs w)).
Proof.
  induction rs as [|r rs IH]; intros w; [done|].
  etrans; [apply (seq_chats_handle r)|apply IH].
Qed.

(** X5. Let the rowids be in order (distinct, none above its counter), as
    in every state the handlers reach. Then, whatever requests are served in
    between, deletions among them, the id a later createChat returns is
    above every id a chat has now and above every id a chat has then: the id
    of a deleted chat is never given to a new one. *)
Theorem chat_ids_never_reused (rs : list request) (now : list N) (w : world) :
  wf (db w) ->
  let w1 := serve affinity_eq rs w in
  exists w2 n,
    create_chat now w1 = (w2, Return (RespChatId n))
    /\ Forall (fun i => i < n) (c_id <$> chats (db w))
    /\ Forall (fun i => i < n) (c_id <$> chats (db w1))
    /\ seq_chats (db w) < n.
Proof.
  intros Hwf w1. do 2 eexists. rewrite create_chat_run.
  split; [reflexivity|].
  pose proof (seq_chats_serve rs w) as Hmono. fold w1 in Hmono.
  pose proof (next_rowid_above_seq (seq_chats (db w1)) (c_id <$> chats (db w1)))
    as Hn.
  destruct Hwf as [[_ Hb] _].
  split; [|split; [apply next_rowid_fresh|lia]].
  eapply Forall_impl; [exact Hb|]. cbn beta. intros; lia.
Qed.

End IdsNotReused.

Lemma chat_ids_never_reused_witness :
  let w := World (Database [ChatRow 1 (Some (py "New Chat")) (py "t0")] [] 1 0) [] in
  let w1 := serve (fun _ _ => false) [DeleteChat 1] w in
  wf (db w)
  /\ chats (db w1) = []
  /\ exists w2 n,
      create_chat (py "t1") w1 = (w2, Return (RespChatId n))
      /\ Forall (fun i => i < n) (c_id <$> chats (db w))
      /\ Forall (fun i => i < n) (c_id <$> chats (db w1))
      /\ seq_chats (db w) < n.
Proof.
  intros w w1.
  assert (wf (db w)) as Hwf.
  { repeat split; cbn; try (apply (bool_decide_unpack _); by vm_compute);
      repeat constructor; lia. }
  split; [exact Hwf|]. split; [reflexivity|].
  exact (chat_ids_never_reused (fun _ _ => false) [DeleteChat 1] (py "t1") w Hwf).
Defined.

(** ** What a request leaves alone *)

Lemma serve_cons aff r rs w :
  serve aff (r :: rs) w = serve aff rs (fst (handle aff r w)).
Proof. reflexivity. Qed.

Lemma filter_filter_other (c c' : Z) (l : list message_row) :
  c' <> c ->
  List.filter (fun r => m_chat_id r =? c)
              (List.filter (fun r => negb (m_chat_id r =? c')) l)
  = List.filter (fun r => m_chat_id r =? c) l.
Proof.
  intros Hne. induction l as [|r l IH]; cbn [List.filter]; [done|].
  destruct (Z.eqb_spec (m_chat_id r) c') as [Hc'|Hc']; cbn [negb List.filter].
  - destruct (Z.eqb_spec (m_chat_id r) c); [lia|exact IH].
  - by rewrite IH.
Qed.

Lemma prefix_fmap {A B} (f : A -> B) (l k : list A) :
  l `prefix_of` k -> f <$> l `prefix_of` f <$> k.
Proof. intros [t ->]. exists (f <$> t). apply fmap_app. Qed.

Section Isolation.
Variable affinity_eq : sqlval -> Z -> bool.

Lemma messages_title data gw w :
  messages (db (fst (generate_title affinity_eq data gw w))) = messages (db w).
Proof.
  pose proof (generate_title_db affinity_eq data gw w) as Hd. cbv zeta in Hd.
  by destruct Hd as [->|(sv & _ & _ & ->)].
Qed.

Lemma select_messages_handle c r w :
  touches_messages c r = false ->
  select_messages c (db (fst (handle affinity_eq r w))) = select_messages c (db w).
Proof.
  destruct r as [now|data gw| |c'|c'|p msg now1 now2 gw|];
    cbn [handle touches_messages]; intros Ht; try done.
  - unfold select_messages. by rewrite messages_title.
  - by rewrite get_chat_messages_world.
  - rewrite delete_chat_run. destruct (negb (int64 c')); [done|].
    unfold select_messages. cbn [fst db messages].
    rewrite filter_filter_other; [done|]. by apply Z.eqb_neq.
  - destruct (persona_chat_is_chat_with p) as [sp ->].
    pose proof (chat_with_db sp msg now1 now2 gw w) as Hd. cbv zeta in Hd.
    destruct Hd as [->|[->|[reply ->]]]; [done| |].
    + rewrite select_messages_insert, Ht. by rewrite app_nil_r.
    + rewrite !select_messages_insert, Ht. by rewrite !app_nil_r.
Qed.

(** X6. The messages of a chat are touched only by requests on that
    chat. Let [c] be an id in the 64-bit range of the store: after any
    requests among which no persona chat call and no delete names chat [c],
    whatever they do to other chats, getMessages(c) returns the rows it
    returned before. *)
Theorem get_messages_isolated (c : Z) (rs : list request) (w : world) :
  int64 c = true ->
  Forall (fun r => touches_messages c r = false) rs ->
  let w' := serve affinity_eq rs w in
  exists rows,
    get_chat_messages c w = (w, Return (RespMessages rows))
    /\ get_chat_messages c w' = (w', Return (RespMessages rows)).
Proof.
  intros Hin Hrs w'. exists (select_messages c (db w)).
  split; [by apply get_chat_messages_bound|].
  rewrite (get_chat_messages_bound _ _ Hin). do 3 f_equal. subst w'.
  revert w. induction Hrs as [|r rs Hr Hrs IH]; intros w; [done|].
  rewrite serve_cons.
  by rewrite IH, select_messages_handle.
Qed.

Lemma handle_append_only r w :
  is_delete r = false ->
  messages (db w) `prefix_of` messages (db (fst (handle affinity_eq r w)))
  /\ c_id <$> chats (db w)
       `prefix_of` c_id <$> chats (db (fst (handle affinity_eq r w)))
  /\ c_created_at <$> chats (db w)
       `prefix_of` c_created_at <$> chats (db (fst (handle affinity_eq r w))).
Proof.
  destruct r as [now|data gw| |c'|c'|p msg now1 now2 gw|];
    cbn [handle is_delete]; intros Hd; try done.
  - rewrite create_chat_run. cbn [fst db chats messages].
    split; [done|]. split; apply prefix_fmap; by eexists.
  - rewrite messages_title. split; [done|].
    pose proof (generate_title_db affinity_eq data gw w) as Hg. cbv zeta in Hg.
    destruct Hg as [->|(sv & _ & _ & ->)]; [done|].
    pose proof (update_title_spec affinity_eq (generated_title gw) sv (db w))
      as (-> & -> & _).
    done.
  - by rewrite get_chat_messages_world.
  - destruct (persona_chat_is_chat_with p) as [sp ->].
    pose proof (chat_with_db sp msg now1 now2 gw w) as Hg. cbv zeta in Hg.
    destruct Hg as [->|[->|[reply ->]]]; cbn [insert_message messages chats];
      (split; [|done]); [reflexivity| |]; rewrite <- ?app_assoc; by eexists.
Qed.

(** X7. Only deleteChat removes anything. While requests other than
    deleteChat are served, the messages table grows at its end and no row
    of it is rewritten, and the chats keep their place, their id and their
    created_at (their title may change). *)
Theorem tables_append_only (rs : list request) (w : world) :
  Forall (fun r => is_delete r = false) rs ->
  let d := db w in
  let d' := db (serve affinity_eq rs w) in
  messages d `prefix_of` messages d'
  /\ c_id <$> chats d `prefix_of` c_id <$> chats d'
  /\ c_created_at <$> chats d `prefix_of` c_created_at <$> chats d'.
Proof.
  intros Hrs. cbv zeta. revert w.
  induction Hrs as [|r rs Hr Hrs IH]; intros w; [done|].
  rewrite serve_cons.
  destruct (handle_append_only r w Hr) as (Hm & Hi & Hc).
  destruct (IH (fst (handle affinity_eq r w))) as (Hm' & Hi' & Hc').
  repeat split; etrans; eauto.
Qed.

Lemma gateway_log_handle r w :
  exists new,
    gateway_log (fst (handle affinity_eq r w)) = gateway_log w ++ new
    /\ length new = gateway_calls r
    /\ Forall (fun q => gw_model q = py "gpt-4o-mini") new.
Proof.
  destruct r as [now|data gw| |c'|c'|p msg now1 now2 gw|];
    cbn [handle gateway_calls]; try (exists []; by rewrite app_nil_r).
  - rewrite generate_title_run. cbv zeta.
    destruct (truthy _); [|exists []; by rewrite app_nil_r].
    exists [title_request data].
    destruct (negb _); [repeat split; by constructor|].
    destruct (sql_bind _); repeat split; by constructor.
  - exists []. by rewrite get_chat_messages_world, app_nil_r.
  - exists []. rewrite delete_chat_run.
    destruct (negb (int64 c')); by rewrite app_nil_r.
  - destruct (persona_chat_is_chat_with p) as [sp ->]. rewrite chat_with_run.
    cbv zeta. destruct (int64 (chat_id msg)); cbn [negb andb];
      [|exists []; by rewrite app_nil_r].
    destruct (encodable (message msg)); cbn [negb];
      [|exists []; by rewrite app_nil_r].
    eexists [_]. destruct gw as [|[content|]]; [| |];
      try destruct (negb (encodable (strip content)));
      repeat split; by constructor.
Qed.

(** X8. The calls to the completion client are never dropped from the
    record and never repeated: serving a sequence of requests adds one call
    for each persona chat request whose chat_id and message the store can
    bind (another one stops at its first INSERT, before the client is
    called) and one for each title request with a truthy chat_id, whether
    the client answers or fails, and none for any other request; every call
    names the model "gpt-4o-mini". *)
Theorem gateway_calls_counted (rs : list request) (w : world) :
  exists new,
    gateway_log (serve affinity_eq rs w) = gateway_log w ++ new
    /\ length new = sum_list (gateway_calls <$> rs)
    /\ Forall (fun q => gw_model q = py "gpt-4o-mini") new.
Proof.
  revert w. induction rs as [|r rs IH]; intros w.
  - exists []. by rewrite app_nil_r.
  - rewrite serve_cons.
    destruct (gateway_log_handle r w) as (n1 & H1 & L1 & M1).
    destruct (IH (fst (handle affinity_eq r w))) as (n2 & H2 & L2 & M2).
    exists (n1 ++ n2). rewrite H2, H1, <- app_assoc. split; [done|].
    split; [|by apply Forall_app].
    rewrite length_app, L1, L2. done.
Qed.

End Isolation.

Lemma get_messages_isolated_witness :
  let w := World (Database [] [MessageRow 1 1 (py "user") (py "hi") (py "t1")] 0 1) [] in
  let rs := [PostPersonaChat TravelPlanner (Build_Message 2 (py "Rome?"))
                             (py "t2") (py "t3") GwRaise;
             DeleteChat 2; PostChatNew (py "t4")] in
  let w' := serve (fun _ _ => false) rs w in
  exists rows,
    get_chat_messages 1 w = (w, Return (RespMessages rows))
    /\ get_chat_messages 1 w' = (w', Return (RespMessages rows)).
Proof.
  intros w rs.
  apply (get_messages_isolated (fun _ _ => false) 1 rs w eq_refl).
  repeat constructor.
Defined.

Lemma tables_append_only_witness :
  let w := World (Database [ChatRow 1 (Some (py "New Chat")) (py "t0")]
                           [MessageRow 1 1 (py "user") (py "hi") (py "t1")] 1 1) [] in
  let data : gmap (list N) json := {[ py "chat_id" := JInt 1 ]} in
  let rs := [PostChatTitle data (GwReply (Some (py "Greeting")));
             PostPersonaChat RealEstate (Build_Message 1 (py "2BHK?"))
                             (py "t2") (py "t3") (GwReply (Some (py "Yes.")))] in
  let d := db w in
  let d' := db (serve (fun _ _ => false) rs w) in
  messages d `prefix_of` messages d'
  /\ c_id <$> chats d `prefix_of` c_id <$> chats d'
  /\ c_created_at <$> chats d `prefix_of` c_created_at <$> chats d'.
Proof.
  intros w data rs.
  apply (tables_append_only (fun _ _ => false) rs w).
  repeat constructor.
Defined.

(** ** Titles *)

Lemma chat_entry_title_nonempty r : e_title (chat_entry_of r) <> [].
Proof.
  unfold chat_entry_of. cbn [e_title].
  destruct (c_title r) as [[|c t]|]; cbn; discriminate.
Qed.

(** X9. listChats never shows an empty title. An entry carries the id and
    created_at of its row and the row's title, except that a row whose
    title is NULL or the empty string is shown as "New Chat". *)
Theorem listed_titles_never_empty (w : world) :
  exists entries,
    list_chats w = (w, Return (RespChats entries))
    /\ Forall (fun e => e_title e <> []) entries
    /\ Forall2 (fun r e =>
         e_id e = c_id r /\ e_created_at e = c_created_at r
         /\ e_title e = match c_title r with
                        | Some (c :: t) => c :: t
                        | Some [] | None => py "New Chat"
                        end)
       (select_chats (db w)) entries.
Proof.
  eexists. split; [apply list_chats_run|]. split.
  - apply Forall_fmap, Forall_forall. intros r _. apply chat_entry_title_nonempty.
  - apply Forall2_fmap_r, Forall_Forall2_diag, Forall_forall. intros r _.
    unfold chat_entry_of. cbn. by destruct (c_title r) as [[|c t]|].
Qed.

Section TitlesKept.
Variable affinity_eq : sqlval -> Z -> bool.

Lemma titled_handle r w :
  titled (db w) -> titled (db (fst (handle affinity_eq r w))).
Proof.
  intros Ht.
  destruct r as [now|data gw| |c'|c'|p msg now1 now2 gw|]; cbn [handle]; try done.
  - rewrite create_chat_run. unfold titled. cbn [fst db chats].
    apply Forall_app. split; [exact Ht|].
    constructor; [|done]. by eexists.
  - pose proof (generate_title_db affinity_eq data gw w) as Hd. cbv zeta in Hd.
    destruct Hd as [->|(sv & _ & _ & ->)]; [done|].
    unfold titled, update_title. cbn [chats].
    apply Forall_fmap. eapply Forall_impl; [exact Ht|]. cbn. intros r Hr.
    destruct (id_eq affinity_eq sv (c_id r)); [|done].
    eexists. split; [done|]. apply generated_title_nonempty.
  - by rewrite get_chat_messages_world.
  - rewrite delete_chat_run. destruct (negb (int64 c')); [done|].
    unfold titled. cbn [fst db chats].
    by apply Forall_filter_weaken.
  - destruct (persona_chat_is_chat_with p) as [sp ->]. unfold titled.
    by rewrite (proj1 (chat_with_chats sp msg now1 now2 gw w)).
Qed.

Lemma titled_serve rs : forall w,
  titled (db w) -> titled (db (serve affinity_eq rs w)).
Proof.
  induction rs as [|r rs IH]; intros w Hw; [done|].
  rewrite serve_cons. by apply IH, titled_handle.
Qed.

(** X10. The handlers store no NULL and no empty title: starting on a
    missing file, or on one where every chat has a non-empty title, every
    chat has a non-empty title after any requests, and listChats shows the
    stored titles as they are (the "New Chat" default of the listing is
    never taken). *)
Theorem stored_titles_never_empty (file : option database)
    (rs : list request) (log : list gw_request) :
  match file with Some d => titled d | None => True end ->
  let w' := serve affinity_eq rs (World (init_db file) log) in
  titled (db w')
  /\ exists entries,
       list_chats w' = (w', Return (RespChats entries))
       /\ Some <$> (e_title <$> entries) = c_title <$> select_chats (db w').
Proof.
  intros Hfile w'.
  assert (titled (db w')) as Ht.
  { apply titled_serve. cbn [db]. destruct file; [done|constructor]. }
  split; [exact Ht|].
  eexists. split; [apply list_chats_run|].
  assert (Forall (fun r => exists t, c_title r = Some t /\ t <> [])
                 (select_chats (db w'))) as Hs.
  { unfold select_chats, order_by_desc.
    by rewrite (order_by_Permutation c_id Z.geb). }
  induction Hs as [|r rows (t & Hr & Hne) Hs IH]; csimpl; [done|].
  rewrite IH. f_equal. unfold chat_entry_of. cbn. rewrite Hr.
  by destruct t.
Qed.

End TitlesKept.

Lemma stored_titles_never_empty_witness :
  let data : gmap (list N) json := {[ py "chat_id" := JInt 1 ]} in
  let rs := [PostChatNew (py "t0"); PostChatTitle data (GwReply (Some (py " ")))] in
  let w' := serve (fun _ _ => false) rs (World (init_db None) []) in
  titled (db w')
  /\ exists entries,
       list_chats w' = (w', Return (RespChats entries))
       /\ Some <$> (e_title <$> entries) = c_title <$> select_chats (db w').
Proof.
  intros data rs.
  exact (stored_titles_never_empty (fun _ _ => false) None rs [] I).
Defined.

(** ** Deleting, retitling, and ids used ahead of time *)

Lemma filter_comm {A} (P Q : A -> bool) (l : list A) :
  List.filter P (List.filter Q l) = List.filter Q (List.filter P l).
Proof.
  induction l as [|x l IH]; cbn [List.filter]; [done|].
  destruct (P x) eqn:HP, (Q x) eqn:HQ; cbn [List.filter];
    rewrite ?HP, ?HQ, IH; done.
Qed.

(** X11. Two deletions can be made in either order: deleteChat(c1) after
    deleteChat(c2) leaves the state that deleteChat(c2) after deleteChat(c1)
    leaves, and each answers "deleted" when its id is in the 64-bit range of
    the store (one that is not raises and deletes nothing, in either
    order). *)
Theorem delete_chat_commutes (c1 c2 : Z) (w : world) :
  fst (delete_chat c1 (fst (delete_chat c2 w)))
  = fst (delete_chat c2 (fst (delete_chat c1 w)))
  /\ (int64 c1 = true ->
      snd (delete_chat c1 (fst (delete_chat c2 w)))
        = Return (RespStatus (py "deleted")))
  /\ (int64 c2 = true ->
      snd (delete_chat c2 (fst (delete_chat c1 w)))
        = Return (RespStatus (py "deleted")))
  /\ (int64 c1 = false ->
      delete_chat c1 (fst (delete_chat c2 w))
        = (fst (delete_chat c2 w), Raise OverflowError)).
Proof.
  rewrite !delete_chat_run.
  destruct (int64 c1), (int64 c2);
    cbn [negb fst snd db chats messages seq_chats seq_messages gateway_log];
    repeat split; try done.
  by rewrite (filter_comm (fun r => negb (c_id r =? c1))),
             (filter_comm (fun r => negb (m_chat_id r =? c1))).
Qed.

Lemma delete_chat_commutes_witness :
  let w := World (Database [ChatRow 1 (Some (py "Rome")) (py "t0");
                            ChatRow 2 (Some (py "New Chat")) (py "t1")]
                           [MessageRow 1 2 (py "user") (py "hi") (py "t2")] 2 1) [] in
  fst (delete_chat 1 (fst (delete_chat 2 w)))
  = fst (delete_chat 2 (fst (delete_chat 1 w)))
  /\ snd (delete_chat 1 (fst (delete_chat 2 w)))
     = Return (RespStatus (py "deleted"))
  /\ snd (delete_chat 2 (fst (delete_chat 1 w)))
     = Return (RespStatus (py "deleted")).
Proof.
  intros w.
  destruct (delete_chat_commutes 1 2 w) as (Hst & H1 & H2 & _).
  split; [exact Hst|]. split; [exact (H1 eq_refl)|exact (H2 eq_refl)].
Defined.

Section TitleReach.
Variable affinity_eq : sqlval -> Z -> bool.

(** X12. A title request whose chat_id is the integer [c] reaches chat
    [c] only: the rows of all other chats, titles included, the ids and
    created_at of all chats, all messages and both counters are as before,
    whatever the completion client answers. *)
Theorem title_request_reaches_one_chat
    (data : gmap (list N) json) (gw : gw_outcome) (c : Z) (w : world) :
  data !! py "chat_id" = Some (JInt c) ->
  let d := db w in
  let d' := db (fst (generate_title affinity_eq data gw w)) in
  List.filter (fun r => negb (c_id r =? c)) (chats d')
    = List.filter (fun r => negb (c_id r =? c)) (chats d)
  /\ (forall c', c' <> c -> stored_title c' d' = stored_title c' d)
  /\ c_id <$> chats d' = c_id <$> chats d
  /\ c_created_at <$> chats d' = c_created_at <$> chats d
  /\ messages d' = messages d
  /\ seq_chats d' = seq_chats d /\ seq_messages d' = seq_messages d.
Proof.
  intros Hv. cbv zeta. rewrite generate_title_run. cbv zeta.
  rewrite (dict_get_present _ _ _ Hv). cbn [truthy sql_bind].
  destruct (negb (c =? 0)); [|done].
  destruct (negb (encodable _)); [done|].
  destruct (int64 c); [|done]. cbn [fst db].
  pose proof (update_title_spec affinity_eq (generated_title gw) (SqlInt c) (db w))
    as (Hid & Hcr & _ & Hrest & Hm & Hs1 & Hs2).
  cbv zeta in Hrest. cbn [id_eq] in Hrest.
  repeat split; try done.
  intros c' Hne. rewrite stored_title_update. cbn [id_eq].
  by rewrite (proj2 (Z.eqb_neq _ _) Hne).
Qed.

(** X13. When the completion client answers a title request with content
    that is not blank, the title returned and stored is that content
    stripped: it neither starts nor ends with whitespace; here the chat_id
    is truthy, and the store can bind it and can encode the stripped
    content. *)
Theorem title_is_stripped_reply
    (data : gmap (list N) json) (v : json) (sv : sqlval) (content : list N)
    (w : world) :
  data !! py "chat_id" = Some v ->
  truthy v = true ->
  sql_bind v = Some sv ->
  strip content <> [] ->
  encodable (strip content) = true ->
  generate_title affinity_eq data (GwReply (Some content)) w
    = (World (update_title affinity_eq (strip content) sv (db w))
             (gateway_log w ++ [title_request data]),
       Return (RespTitle (strip content)))
  /\ trimmed (strip content) = true
  /\ (forall c, id_eq affinity_eq sv c = true ->
                stored_title c (db w) <> None ->
                stored_title c (update_title affinity_eq (strip content) sv (db w))
                  = Some (Some (strip content))).
Proof.
  intros Hv Ht Hb Hne He. split; [|split; [apply strip_trimmed|]].
  - rewrite generate_title_run. cbv zeta.
    rewrite (dict_get_present _ _ _ Hv), Ht, Hb. cbn [generated_title].
    destruct (strip content) as [|c t]; [done|]. cbn [str_truthy].
    by rewrite He.
  - intros c Hc Hex. rewrite stored_title_update, Hc.
    destruct (stored_title c (db w)); [done|by destruct Hex].
Qed.

End TitleReach.

Lemma title_request_reaches_one_chat_witness :
  let data : gmap (list N) json := {[ py "chat_id" := JInt 2 ]} in
  let w := World (Database [ChatRow 1 (Some (py "Rome")) (py "t0");
                            ChatRow 2 (Some (py "New Chat")) (py "t1")] [] 2 0) [] in
  let d' := db (fst (generate_title (fun _ _ => false) data
                                    (GwReply (Some (py "Diet plan"))) w)) in
  stored_title 2 d' = Some (Some (py "Diet plan"))
  /\ forall c', c' <> 2 -> stored_title c' d' = stored_title c' (db w).
Proof.
  intros data w d'. split; [reflexivity|].
  assert (data !! py "chat_id" = Some (JInt 2)) as Hv by (by vm_compute).
  apply (title_request_reaches_one_chat (fun _ _ => false) data
           (GwReply (Some (py "Diet plan"))) 2 w Hv).
Defined.

Lemma title_is_stripped_reply_witness :
  let data : gmap (list N) json := {[ py "chat_id" := JInt 1 ]} in
  let w := World (Database [ChatRow 1 (Some (py "New Chat")) (py "t0")] [] 1 0) [] in
  generate_title (fun _ _ => false) data (GwReply (Some (py " Diet plan "))) w
  = (World (Database [ChatRow 1 (Some (py "Diet plan")) (py "t0")] [] 1 0)
           [title_request data],
     Return (RespTitle (py "Diet plan"))).
Proof.
  intros data w.
  assert (data !! py "chat_id" = Some (JInt 1)) as Hv by (by vm_compute).
  assert (strip (py " Diet plan ") <> []) as Hne by discriminate.
  exact (proj1 (title_is_stripped_reply (fun _ _ => false) data (JInt 1) (SqlInt 1)
                  (py " Diet plan ") w Hv eq_refl eq_refl Hne eq_refl)).
Defined.

(** X14. No handler checks that a chat_id names a chat, and createChat
    does not look at the messages. So when a persona chat call is made with
    the id that the next createChat will give out (an id in the 64-bit
    range, with a message the store can encode), the chat created next gets
    that id and starts with the messages of that call: getMessages on the id
    createChat returned contains the "user" row written before the chat
    existed. *)
Theorem new_chat_inherits_dangling_messages (p : persona) (msg : Message)
    (now1 now2 now : list N) (gw : gw_outcome) (w : world) :
  chat_id msg = next_rowid (seq_chats (db w)) (c_id <$> chats (db w)) ->
  int64 (chat_id msg) = true ->
  encodable (message msg) = true ->
  let w1 := fst (persona_chat p msg now1 now2 gw w) in
  exists w2 rows,
    create_chat now w1 = (w2, Return (RespChatId (chat_id msg)))
    /\ get_chat_messages (chat_id msg) w2 = (w2, Return (RespMessages rows))
    /\ MessageRow (next_rowid (seq_messages (db w)) (m_id <$> messages (db w)))
                  (chat_id msg) (py "user") (message msg) now1 ∈ rows.
Proof.
  intros Hid Hc Hm w1. subst w1.
  destruct (persona_chat_is_chat_with p) as [sp ->].
  rewrite (chat_with_bound _ _ _ _ _ _ Hc Hm). cbv zeta.
  assert (forall d, chats d = chats (db w) -> seq_chats d = seq_chats (db w) ->
            next_rowid (seq_chats d) (c_id <$> chats d) = chat_id msg) as Hsame.
  { intros d -> ->. done. }
  destruct gw as [|[content|]];
    try destruct (negb (encodable (strip content)));
    cbn [fst db];
    do 2 eexists; rewrite create_chat_run, (get_chat_messages_bound _ _ Hc);
    cbn [db];
    (rewrite Hsame by reflexivity; split; [reflexivity|]; split; [reflexivity|]);
    unfold select_messages; cbn [db messages insert_message];
    rewrite ?List.filter_app; cbn [List.filter m_chat_id]; rewrite Z.eqb_refl;
    unfold order_by_asc; rewrite (order_by_Permutation m_id Z.leb);
    set_solver.
Qed.

Lemma new_chat_inherits_dangling_messages_witness :
  let msg := Build_Message 1 (py "hello") in
  let w1 := fst (chat_student_mentor msg (py "t1") (py "t2") GwRaise
                   (World empty_db [])) in
  exists w2 rows,
    create_chat (py "t3") w1 = (w2, Return (RespChatId 1))
    /\ get_chat_messages 1 w2 = (w2, Return (RespMessages rows))
    /\ MessageRow 1 1 (py "user") (py "hello") (py "t1") ∈ rows.
Proof.
  intros msg.
  exact (new_chat_inherits_dangling_messages StudentMentor msg (py "t1") (py "t2")
           (py "t3") GwRaise (World empty_db []) eq_refl eq_refl eq_refl).
Defined.
